(** * tree-gen: the Blender operator of [ch_trees/gui.py] and the generation
      core it drives.

    The first part embeds [ch_trees/gui.py]: the inputs the class body of
    [TreeGen] declares with their hard limits, the operator ([execute],
    [_construct], [_get_params_from_customizer]), the panel ([draw]) and the
    folder scan ([_get_tree_types]).  Python statements become computations
    of a small state-and-exception monad over an explicit world (console
    streams, started threads, Blender data); the modules that [gui.py]
    imports and calls are parameters of the embedding.

    The second part models the generation core (the parametric generator
    with its pruning retries, the L-system interpreter and the mesh
    builder), whose modules are imported by [gui.py]. *)

From Stdlib Require Import ZArith QArith Qminmax Qround String Ascii List Bool Arith
  Lia Lqa.
Import ListNotations.

Open Scope string_scope.
Open Scope Z_scope.

(* ===================================================================== *)
(** * Python: exceptions, values, the console                             *)
(* ===================================================================== *)

Module Py.

(** The exception classes that occur; [KeyboardInterrupt] and [SystemExit]
    derive from [BaseException] only, every other one from [Exception]. *)
Inductive ExnClass : Type :=
| KeyboardInterrupt
| SystemExit
| NameError
| AttributeError
| ImportError
| TypeError
| ValueError
| RuntimeError
| MemoryError.

(** [isinstance(ex, Exception)], the test of [except Exception]. *)
Definition is_Exception (c : ExnClass) : bool :=
  match c with
  | KeyboardInterrupt | SystemExit => false
  | _ => true
  end.

Record Exn : Type := mkExn { exn_class : ExnClass; exn_msg : string }.

Inductive Result (A : Type) : Type :=
| Return (a : A)
| Raise (e : Exn).
Arguments Return {A} a.
Arguments Raise {A} e.

(** The few values the operator handles as objects. *)
Inductive Value : Type :=
| None_
| Str (s : string)
| Function (module_name attr : string).

Definition nl : string := String (ascii_of_nat 10) EmptyString.

(** [str(v)], as ['{}'.format(v)] renders it. *)
Definition str (v : Value) : string :=
  match v with
  | None_ => "None"
  | Str s => s
  | Function m a => "<function " ++ a ++ ">"
  end.

(** A module as the set of the names it defines. *)
Record Module : Type := mkModule { mod_name : string; mod_names : list string }.

Definition has_name (m : Module) (attr : string) : bool :=
  existsb (String.eqb attr) (mod_names m).

(** The public names of the standard library's [traceback] module. *)
Definition traceback : Module :=
  mkModule "traceback"
    [ "clear_frames"; "extract_stack"; "extract_tb"; "format_exc";
      "format_exception"; "format_exception_only"; "format_list";
      "format_stack"; "format_tb"; "print_exc"; "print_exception";
      "print_last"; "print_stack"; "print_tb"; "walk_stack"; "walk_tb";
      "FrameSummary"; "StackSummary"; "TracebackException" ].

End Py.

(* ===================================================================== *)
(** * Blender properties ([bpy.props])                                    *)
(* ===================================================================== *)

Module Bpy.

(** [IntProperty(default=, min=, max=)]: [min] and [max] are hard limits,
    a value assigned beyond one is stored as that limit. *)
Record IntProperty : Type :=
  mkInt { int_default : Z; int_min : Z; int_max : Z }.

Record BoolProperty : Type := mkBool { bool_default : bool }.

(** [EnumProperty(items=, default=)], items as (identifier, label,
    hover text). *)
Record EnumProperty (K : Type) : Type :=
  mkEnum { enum_items : list (K * string * string); enum_default : K }.
Arguments mkEnum {K} enum_items enum_default.
Arguments enum_items {K} e.
Arguments enum_default {K} e.

Definition int_assign (p : IntProperty) (v : Z) : Z :=
  if v <? int_min p then int_min p
  else if int_max p <? v then int_max p
  else v.

(** The value a property holds: its default until something is assigned,
    then the last assigned value within the hard limits. *)
Definition int_value (p : IntProperty) (assigned : option Z) : Z :=
  match assigned with
  | None => int_default p
  | Some v => int_assign p v
  end.

Definition bool_value (p : BoolProperty) (assigned : option bool) : bool :=
  match assigned with
  | None => bool_default p
  | Some v => v
  end.

(** An identifier that is not among the items is refused and never
    stored. *)
Definition enum_value {K} (eqb : K -> K -> bool) (p : EnumProperty K)
    (assigned : option K) : K :=
  match assigned with
  | None => enum_default p
  | Some k =>
      if existsb (fun item => eqb (fst (fst item)) k) (enum_items p)
      then k else enum_default p
  end.

(** What an operator's [execute] hands back to Blender. *)
Inductive OperatorReturn : Type :=
| RUNNING_MODAL
| CANCELLED
| FINISHED
| PASS_THROUGH
| INTERFACE.

End Bpy.

(* ===================================================================== *)
(** * [ch_trees/gui.py]                                                   *)
(* ===================================================================== *)

Module Gui.

Import Py Bpy.

(** ** The properties declared on [bpy.types.Scene] *)

(** Class body of [TreeGen]. *)
Definition _gen_methods : list (string * string * string) :=
  [ ("parametric", "Parametric", "Parametric mode");
    ("lsystem", "L-System", "L-System mode") ].

Definition tree_gen_method_input_prop : EnumProperty string :=
  mkEnum _gen_methods "parametric".

Definition seed_input_prop : IntProperty := mkInt 0 0 9999999.
Definition generate_leaves_input_prop : BoolProperty := mkBool true.
Definition simplify_geometry_input_prop : BoolProperty := mkBool false.
Definition render_input_prop : BoolProperty := mkBool false.

(** ** The scene *)

(** The attributes of the scene that the functions of [gui.py] read: the
    eight inputs the class body of [TreeGen] declares, and three of the
    customizer ([tree_shape_input], read by [draw], and the two base-split
    inputs, read by [_get_params_from_customizer]). *)
Record Scene : Type := mkScene {
  tree_gen_method_input : string;
  para_tree_type_input : string;
  lsys_tree_type_input : string;
  seed_input : Z;
  generate_leaves_input : bool;
  simplify_geometry_input : bool;
  render_input : bool;
  render_output_path_input : string;
  tree_shape_input : Z;
  tree_base_splits_randomize_input : bool;
  tree_base_splits_limit_input : Z
}.

(** What the user (or a script) last assigned to each declared input;
    [None] for an input left at its default.  The tree type drop-downs are
    filled from a folder scan and the render path from the home directory, so
    their values are taken as they are; so are the three attributes of the
    customizer, whose declarations stand in [_initialize_customizer_params],
    a function that the class body never calls. *)
Record Assigned : Type := mkAssigned {
  a_method : option string;
  a_para_tree_type : string;
  a_lsys_tree_type : string;
  a_seed : option Z;
  a_generate_leaves : option bool;
  a_simplify_geometry : option bool;
  a_render : option bool;
  a_render_output_path : string;
  a_tree_shape : Z;
  a_tree_base_splits_randomize : bool;
  a_tree_base_splits_limit : Z
}.

(** The scene the property system holds after those assignments. *)
Definition scene_of (a : Assigned) : Scene := {|
  tree_gen_method_input := enum_value String.eqb tree_gen_method_input_prop (a_method a);
  para_tree_type_input := a_para_tree_type a;
  lsys_tree_type_input := a_lsys_tree_type a;
  seed_input := int_value seed_input_prop (a_seed a);
  generate_leaves_input := bool_value generate_leaves_input_prop (a_generate_leaves a);
  simplify_geometry_input :=
    bool_value simplify_geometry_input_prop (a_simplify_geometry a);
  render_input := bool_value render_input_prop (a_render a);
  render_output_path_input := a_render_output_path a;
  tree_shape_input := a_tree_shape a;
  tree_base_splits_randomize_input := a_tree_base_splits_randomize a;
  tree_base_splits_limit_input := a_tree_base_splits_limit a
|}.

(** Every declared input left untouched, the customizer's attributes at the
    defaults written for them. *)
Definition untouched (para lsys path : string) : Assigned := {|
  a_method := None;
  a_para_tree_type := para;
  a_lsys_tree_type := lsys;
  a_seed := None;
  a_generate_leaves := None;
  a_simplify_geometry := None;
  a_render := None;
  a_render_output_path := path;
  a_tree_shape := 0;
  a_tree_base_splits_randomize := false;
  a_tree_base_splits_limit := 0
|}.

(** [scene.tree_gen_method_input = v], [scene.seed_input = v] and so on. *)
Definition assign_method (v : string) (a : Assigned) : Assigned := {|
  a_method := Some v;
  a_para_tree_type := a_para_tree_type a;
  a_lsys_tree_type := a_lsys_tree_type a;
  a_seed := a_seed a;
  a_generate_leaves := a_generate_leaves a;
  a_simplify_geometry := a_simplify_geometry a;
  a_render := a_render a;
  a_render_output_path := a_render_output_path a;
  a_tree_shape := a_tree_shape a;
  a_tree_base_splits_randomize := a_tree_base_splits_randomize a;
  a_tree_base_splits_limit := a_tree_base_splits_limit a
|}.

Definition assign_seed (v : Z) (a : Assigned) : Assigned := {|
  a_method := a_method a;
  a_para_tree_type := a_para_tree_type a;
  a_lsys_tree_type := a_lsys_tree_type a;
  a_seed := Some v;
  a_generate_leaves := a_generate_leaves a;
  a_simplify_geometry := a_simplify_geometry a;
  a_render := a_render a;
  a_render_output_path := a_render_output_path a;
  a_tree_shape := a_tree_shape a;
  a_tree_base_splits_randomize := a_tree_base_splits_randomize a;
  a_tree_base_splits_limit := a_tree_base_splits_limit a
|}.

Definition assign_simplify_geometry (v : bool) (a : Assigned) : Assigned := {|
  a_method := a_method a;
  a_para_tree_type := a_para_tree_type a;
  a_lsys_tree_type := a_lsys_tree_type a;
  a_seed := a_seed a;
  a_generate_leaves := a_generate_leaves a;
  a_simplify_geometry := Some v;
  a_render := a_render a;
  a_render_output_path := a_render_output_path a;
  a_tree_shape := a_tree_shape a;
  a_tree_base_splits_randomize := a_tree_base_splits_randomize a;
  a_tree_base_splits_limit := a_tree_base_splits_limit a
|}.

Definition assign_base_splits_randomize (v : bool) (a : Assigned) : Assigned := {|
  a_method := a_method a;
  a_para_tree_type := a_para_tree_type a;
  a_lsys_tree_type := a_lsys_tree_type a;
  a_seed := a_seed a;
  a_generate_leaves := a_generate_leaves a;
  a_simplify_geometry := a_simplify_geometry a;
  a_render := a_render a;
  a_render_output_path := a_render_output_path a;
  a_tree_shape := a_tree_shape a;
  a_tree_base_splits_randomize := v;
  a_tree_base_splits_limit := a_tree_base_splits_limit a
|}.

Definition assign_base_splits_limit (v : Z) (a : Assigned) : Assigned := {|
  a_method := a_method a;
  a_para_tree_type := a_para_tree_type a;
  a_lsys_tree_type := a_lsys_tree_type a;
  a_seed := a_seed a;
  a_generate_leaves := a_generate_leaves a;
  a_simplify_geometry := a_simplify_geometry a;
  a_render := a_render a;
  a_render_output_path := a_render_output_path a;
  a_tree_shape := a_tree_shape a;
  a_tree_base_splits_randomize := a_tree_base_splits_randomize a;
  a_tree_base_splits_limit := v
|}.

(** The module name [_construct] selects. *)
Definition selected_module (s : Scene) : string :=
  if String.eqb (tree_gen_method_input s) "parametric"
  then para_tree_type_input s
  else lsys_tree_type_input s.

Record Context : Type := mkContext { scene : Scene }.

(** ** The world the operator acts on *)

(** A thread handed to [threading.Thread(target=..., kwargs=...)] and
    started: the target is always [self._construct]. *)
Inductive ThreadTarget : Type :=
| Target_construct (context : Context).

Section Operator.

(** What the imported modules act on (Blender's data, and whatever they
    print themselves) and the parameter bundle of a preset module are left
    abstract. *)
Context {Host Params : Type}.

(** The calls made into the imported modules, in order. *)
Inductive Call : Type :=
| Call_import (name : string)
| Call_reload (name : string)
| Call_parametric_construct
    (params : Params) (seed : Z) (render : bool) (path : string) (leaves : bool)
| Call_lsystems_construct (name : string) (leaves : bool)
| Call_simplify_branch_geometry.

(** What the statements of [gui.py] act on: [stdout] and [stderr] hold what
    they, and the interpreter reporting for a thread, write to the two
    streams, in order; [calls] the calls they make into the imported modules;
    [started] the threads they start; [host] all that the imported modules
    act on. *)
Record World : Type := mkWorld {
  stdout : list string;
  stderr : list string;
  calls : list Call;
  started : list ThreadTarget;
  host : Host
}.

Definition M (A : Type) : Type := World -> Result A * World.

Definition ret {A} (a : A) : M A := fun w => (Return a, w).

Definition bind {A B} (c : M A) (k : A -> M B) : M B :=
  fun w =>
    match c w with
    | (Return a, w') => k a w'
    | (Raise e, w') => (Raise e, w')
    end.

Definition raise {A} (e : Exn) : M A := fun w => (Raise e, w).

(** [try: body  except <class> as ex: handler ex]. *)
Definition try_except {A} (body : M A) (catches : ExnClass -> bool)
    (handler : Exn -> M A) : M A :=
  fun w =>
    match body w with
    | (Return a, w') => (Return a, w')
    | (Raise e, w') =>
        if catches (exn_class e) then handler e w' else (Raise e, w')
    end.

Local Notation "x <- c ;; k" := (bind c (fun x => k))
  (at level 61, c at next level, right associativity).
Local Notation "c ;;; k" := (bind c (fun _ => k))
  (at level 61, right associativity).

Definition sys_stdout_write (s : string) : M unit :=
  fun w => (Return tt,
            mkWorld (stdout w ++ [s]) (stderr w) (calls w) (started w) (host w)).

(** [sys.stdout.flush()] changes nothing that is observed here. *)
Definition sys_stdout_flush : M unit := ret tt.

Definition sys_stderr_write (s : string) : M unit :=
  fun w => (Return tt,
            mkWorld (stdout w) (stderr w ++ [s]) (calls w) (started w) (host w)).

Definition log (c : Call) : M unit :=
  fun w => (Return tt,
            mkWorld (stdout w) (stderr w) (calls w ++ [c]) (started w) (host w)).

(** A call into an imported module acts on [host] only. *)
Definition foreign {A} (f : Host -> Result A * Host) : M A :=
  fun w =>
    let (r, h) := f (host w) in
    (r, mkWorld (stdout w) (stderr w) (calls w) (started w) h).

(** [m.attr] on a module object. *)
Definition module_getattr (m : Module) (attr : string) : M Value :=
  if has_name m attr then ret (Function (mod_name m) attr)
  else raise (mkExn AttributeError
                ("module '" ++ mod_name m ++ "' has no attribute '" ++ attr ++ "'")).

(** Calling one of [traceback]'s printing functions: the report goes to
    [sys.stderr] and the call returns [None]. *)
Definition call (f : Value) : M Value :=
  match f with
  | Function m a => sys_stderr_write ("Traceback (most recent call last):") ;;; ret None_
  | _ => raise (mkExn TypeError "object is not callable")
  end.

(** The modules [gui.py] imports and calls; their code is not part of
    [gui.py]. *)
Record Imports : Type := mkImports {
  (** [__import__(mod_name, fromlist=[''])] *)
  import_ : string -> Host -> Result unit * Host;
  (** [imp.reload(mod)] *)
  imp_reload : string -> Host -> Result unit * Host;
  (** [mod.params] *)
  mod_params : string -> Host -> Result Params * Host;
  (** [parametric.gen.construct] *)
  parametric_gen_construct :
    Params -> Z -> bool -> string -> bool -> Host -> Result unit * Host;
  (** [lsystems.gen.construct] *)
  lsystems_gen_construct : string -> bool -> Host -> Result unit * Host;
  (** [from . import utilities] *)
  import_utilities : Host -> Result unit * Host;
  (** [utilities.simplify_branch_geometry] *)
  simplify_branch_geometry : Context -> Host -> Result unit * Host
}.

(** A computation that only ever adds to the record of calls. *)
Definition appends_calls {A} (c : M A) : Prop :=
  forall w, exists rest, calls (snd (c w)) = (calls w ++ rest)%list.

Variable lib : Imports.

(** ** [TreeGen._construct] *)

Definition _construct (context : Context) : M unit :=
  let scene := scene context in
  let mod_name := selected_module scene in
  (if String.prefix "ch_trees.parametric" mod_name then
     log (Call_import mod_name) ;;;
     foreign (import_ lib mod_name) ;;;
     log (Call_reload mod_name) ;;;
     foreign (imp_reload lib mod_name) ;;;
     params <- foreign (mod_params lib mod_name) ;;
     log (Call_parametric_construct params (seed_input scene) (render_input scene)
            (render_output_path_input scene) (generate_leaves_input scene)) ;;;
     foreign (parametric_gen_construct lib params (seed_input scene)
                (render_input scene) (render_output_path_input scene)
                (generate_leaves_input scene))
   else
     log (Call_lsystems_construct mod_name (generate_leaves_input scene)) ;;;
     foreign (lsystems_gen_construct lib mod_name (generate_leaves_input scene))) ;;;
  if simplify_geometry_input scene then
    foreign (import_utilities lib) ;;;
    sys_stdout_write
      ("Simplifying tree branch geometry. Blender will appear to crash; be patient."
         ++ nl) ;;;
    sys_stdout_flush ;;;
    try_except
      (log Call_simplify_branch_geometry ;;;
       foreign (simplify_branch_geometry lib context))
      is_Exception
      (fun ex =>
         print_exec <- module_getattr traceback "print_exec" ;;
         printed <- call print_exec ;;
         sys_stdout_write (nl ++ str printed ++ nl) ;;;
         sys_stdout_flush) ;;;
    sys_stdout_write ("Geometry simplification complete" ++ nl ++ nl) ;;;
    sys_stdout_flush
  else ret tt.

(** ** [TreeGen.execute] *)

(** [thread.start()]: the thread is handed to the interpreter, which
    runs it on its own; nothing of it comes back to the statement. *)
Definition thread_start (t : ThreadTarget) : M unit :=
  fun w => (Return tt,
            mkWorld (stdout w) (stderr w) (calls w) (started w ++ [t]) (host w)).

Definition execute (context : Context) : M (list OperatorReturn) :=
  let thread := Target_construct context in
  thread_start thread ;;;
  ret [FINISHED].

(** How the interpreter runs a started thread: the target is called, and
    an exception that leaves it ends the thread and is reported on
    [sys.stderr], [SystemExit] apart, which ends the thread in silence. *)
Definition thread_report (e : Exn) : list string :=
  match exn_class e with
  | SystemExit => []
  | _ => ["Exception in thread: " ++ exn_msg e]
  end.

Definition run_thread (t : ThreadTarget) : M unit :=
  match t with
  | Target_construct context =>
      fun w =>
        match _construct context w with
        | (Return _, w') => (Return tt, w')
        | (Raise e, w') =>
            (Return tt,
             mkWorld (stdout w') (stderr w' ++ thread_report e) (calls w')
               (started w') (host w'))
        end
  end.

(** One request as the host sees it: the value [execute] hands back, and
    the world once the started thread has run. *)
Definition request (context : Context) (w : World)
    : Result (list OperatorReturn) * World :=
  match execute context w with
  | (r, w1) => (r, snd (run_thread (Target_construct context) w1))
  end.

End Operator.

Arguments World : clear implicits.
Arguments M : clear implicits.
Arguments Imports : clear implicits.
Arguments Call : clear implicits.

(** ** [TreeGen._get_params_from_customizer] *)

(** The function has the one parameter [self] and assigns the one local
    [tree_base_splits]; [scene] is read as a global of the module, which
    [gui.py] never binds.  [globals_scene] is what the module's global
    [scene] is bound to, if anything. *)
Definition gui_globals_scene : option Scene := None.

(** The local [tree_base_splits] when the body has run. *)
Definition tree_base_splits_local (scene : Scene) : Z :=
  let tree_base_splits := tree_base_splits_limit_input scene in
  if tree_base_splits_randomize_input scene
  then tree_base_splits * 1
  else tree_base_splits.

Definition _get_params_from_customizer (globals_scene : option Scene)
    : Result Value :=
  match globals_scene with
  | None => Raise (mkExn NameError "name 'scene' is not defined")
  | Some scene =>
      let tree_base_splits := tree_base_splits_local scene in
      Return None_
  end.

End Gui.

(* ===================================================================== *)
(** * Concrete hosts for [gui.py]                                         *)
(* ===================================================================== *)

Module GuiInstances.

Import Py Bpy Gui.

(** Blender's data as the names of the objects created; a preset's
    parameters as a number. *)
Definition Host : Type := list string.
Definition Params : Type := nat.

(** Every imported module does its work. *)
Definition lib_ok : Imports Host Params := {|
  import_ := fun _ h => (Return tt, h);
  imp_reload := fun _ h => (Return tt, h);
  mod_params := fun _ h => (Return 7%nat, h);
  parametric_gen_construct := fun _ _ _ _ _ h => (Return tt, (h ++ ["tree"])%list);
  lsystems_gen_construct := fun _ _ h => (Return tt, (h ++ ["lsystem tree"])%list);
  import_utilities := fun h => (Return tt, h);
  simplify_branch_geometry := fun _ h => (Return tt, h)
|}.

(** The selected preset module cannot be imported. *)
Definition lib_import_fails : Imports Host Params := {|
  import_ := fun name h =>
    (Raise (mkExn ImportError ("No module named '" ++ name ++ "'")), h);
  imp_reload := fun _ h => (Return tt, h);
  mod_params := fun _ h => (Return 7%nat, h);
  parametric_gen_construct := fun _ _ _ _ _ h => (Return tt, (h ++ ["tree"])%list);
  lsystems_gen_construct := fun _ _ h => (Return tt, (h ++ ["lsystem tree"])%list);
  import_utilities := fun h => (Return tt, h);
  simplify_branch_geometry := fun _ h => (Return tt, h)
|}.

(** Geometry simplification fails. *)
Definition lib_simplify_fails : Imports Host Params := {|
  import_ := fun _ h => (Return tt, h);
  imp_reload := fun _ h => (Return tt, h);
  mod_params := fun _ h => (Return 7%nat, h);
  parametric_gen_construct := fun _ _ _ _ _ h => (Return tt, (h ++ ["tree"])%list);
  lsystems_gen_construct := fun _ _ h => (Return tt, (h ++ ["lsystem tree"])%list);
  import_utilities := fun h => (Return tt, h);
  simplify_branch_geometry := fun _ h =>
    (Raise (mkExn RuntimeError "simplification failed"), h)
|}.

Definition quaking_aspen : string := "ch_trees.parametric.tree_params.quaking_aspen".

(** The panel as it opens: parametric mode, Quaking Aspen. *)
Definition panel_defaults : Assigned :=
  untouched quaking_aspen "ch_trees.lsystems.sys_defs.lsys1"
    "/home/user/treegen_render.png".

Definition empty_world : World Host Params := mkWorld [] [] [] [] [].

(** The customizer with "Randomize split count" ticked and five base
    splits. *)
Definition randomized_splits : Assigned :=
  assign_base_splits_limit 5
    (assign_base_splits_randomize true
       (untouched "custom" "ch_trees.lsystems.sys_defs.lsys1"
          "/home/user/treegen_render.png")).

(** A preset module that is not there. *)
Definition missing_preset : Assigned :=
  untouched "ch_trees.parametric.tree_params.missing"
    "ch_trees.lsystems.sys_defs.lsys1" "/home/user/treegen_render.png".

End GuiInstances.

(* ===================================================================== *)
(** * Statements about the seed                                           *)
(* ===================================================================== *)

Module GuiStatements.

Import Py Bpy Gui.

(** The seed [seed], once assigned to [scene.seed_input], is the seed
    argument of the call of [parametric.gen.construct] that [_construct]
    makes for a parametric preset whose module loads. *)
Definition seed_reaches_generator (seed : Z) : Prop :=
  forall (Host Params : Type) (lib : Imports Host Params) (a : Assigned)
         (w : World Host Params) (params : Params) (h1 h2 h3 : Host),
    let s := scene_of (assign_seed seed a) in
    String.prefix "ch_trees.parametric" (selected_module s) = true ->
    import_ lib (selected_module s) (host w) = (Return tt, h1) ->
    imp_reload lib (selected_module s) h1 = (Return tt, h2) ->
    mod_params lib (selected_module s) h2 = (Return params, h3) ->
    exists rest,
      calls (snd (_construct lib (mkContext s) w)) =
        (calls w ++
         [ Call_import (selected_module s); Call_reload (selected_module s);
           Call_parametric_construct params seed (render_input s)
             (render_output_path_input s) (generate_leaves_input s) ] ++ rest)%list.

End GuiStatements.

(* ===================================================================== *)
(** * The generation core: shared data                                    *)
(* ===================================================================== *)

Module Core.

Local Open Scope list_scope.
Local Open Scope nat_scope.

(** Modelled from the spec: the error kinds and warnings of the generation
    modules ([ch_trees.parametric], [ch_trees.lsystems]), which [gui.py]
    imports; section 7 of the specification names them. *)
Inductive Error : Type :=
| InvalidParameter (field : string)
| MalformedGrammar.

Inductive Warning : Type :=
| PruningExhausted
| DegenerateGeometry.

Definition Point : Type := (Q * Q * Q)%type.

Definition origin : Point := (0%Q, 0%Q, 0%Q).

(** Modelled from the spec: a stem of section 3 (its level, its parent as an
    index into the flat sequence of stems, its points with a radius each);
    the generation modules that define it are imported by [gui.py]. *)
Record Stem : Type := mkStem {
  level : nat;
  parent : option nat;
  points : list (Point * Q)
}.

(** The stems of one tree, parents before children. *)
Definition Skeleton : Type := list Stem.

(** The nesting depth of every stem, read off the parent links: a stem
    without parent is at depth 0, a child one below its parent. *)
Fixpoint depths_from (acc : list nat) (parents : list (option nat)) : list nat :=
  match parents with
  | [] => acc
  | p :: rest =>
      depths_from
        (acc ++ [match p with None => O | Some i => S (nth i acc O) end]) rest
  end.

Definition depths (sk : Skeleton) : list nat := depths_from [] (map parent sk).



(** [l[i] = f(l[i])]; out of range nothing changes. *)
Fixpoint update {A} (i : nat) (f : A -> A) (l : list A) : list A :=
  match l, i with
  | [], _ => []
  | x :: l', O => f x :: l'
  | x :: l', S i' => x :: update i' f l'
  end.

End Core.

(* ===================================================================== *)
(** * The L-system interpreter                                            *)
(* ===================================================================== *)

Module LSystem.

Import Core.
Local Open Scope list_scope.
Local Open Scope nat_scope.

(** The six fixed rotations: turn, pitch and roll, either way. *)
Inductive Rotation : Type :=
| TurnLeft | TurnRight | PitchDown | PitchUp | RollLeft | RollRight.

(** Modelled from the spec: the symbol classes of section 4.2 (move and
    draw, move without drawing, turn, pitch or roll, push, pop, the marker
    that begins a new stem; anything else is ignored and logged); they belong
    to [ch_trees.lsystems], which [gui.py] imports and which is not part of
    it. *)
Inductive Symbol : Type :=
| Draw
| Move
| Rotate (r : Rotation)
| Push
| Pop
| NewStem
| Other (c : ascii).

Definition rotation_eqb (a b : Rotation) : bool :=
  match a, b with
  | TurnLeft, TurnLeft | TurnRight, TurnRight | PitchDown, PitchDown
  | PitchUp, PitchUp | RollLeft, RollLeft | RollRight, RollRight => true
  | _, _ => false
  end.

Definition symbol_eqb (a b : Symbol) : bool :=
  match a, b with
  | Draw, Draw | Move, Move | Push, Push | Pop, Pop | NewStem, NewStem => true
  | Rotate r, Rotate r' => rotation_eqb r r'
  | Other c, Other c' => Ascii.eqb c c'
  | _, _ => false
  end.

(** Modelled from the spec: the grammar of section 3, an axiom and ordered
    production rules, each keyed by its left-hand symbol; the grammar
    definitions ([ch_trees.lsystems.sys_defs]) are not part of [gui.py]. *)
Record Grammar : Type := mkGrammar {
  axiom : list Symbol;
  rules : list (Symbol * list Symbol)
}.

(** A symbol is replaced by the right-hand side of the first rule keyed by
    it and passes through unchanged when there is none. *)
Definition rewrite (rs : list (Symbol * list Symbol)) (s : Symbol) : list Symbol :=
  match find (fun r => symbol_eqb (fst r) s) rs with
  | Some r => snd r
  | None => [s]
  end.

(** Modelled from the spec: the expansion of section 4.2, every symbol of
    the current string rewritten once per iteration; it belongs to
    [ch_trees.lsystems.gen], which is not part of [gui.py]. *)
Definition expand_once (rs : list (Symbol * list Symbol)) (w : list Symbol)
    : list Symbol :=
  flat_map (rewrite rs) w.

Fixpoint expand (rs : list (Symbol * list Symbol)) (iterations : nat)
    (w : list Symbol) : list Symbol :=
  match iterations with
  | O => w
  | S n => expand rs n (expand_once rs w)
  end.

(** The fixed step and the fixed angles of a grammar definition. *)
Record Geometry : Type := mkGeometry {
  Orientation : Type;
  upright : Orientation;
  rotate : Rotation -> Orientation -> Orientation;
  advance : Orientation -> Point -> Point;
  initial_width : Q
}.

Section Interpreter.

Variable geo : Geometry.

Record TurtleState : Type := mkTurtle {
  position : Point;
  orientation : Orientation geo;
  pen_width : Q;
  colour : nat
}.

(** A saved frame: the turtle and the stem it was drawing. *)
Definition Frame : Type := (TurtleState * nat)%type.

Record Interp : Type := mkInterp {
  turtle : TurtleState;
  stack : list Frame;
  current : nat;
  stems : Skeleton;
  ignored : list ascii
}.

Definition initial : Interp :=
  mkInterp (mkTurtle origin (upright geo) (initial_width geo) O) [] O
    [mkStem O None [(origin, initial_width geo)]] [].

Definition stem_at (sk : Skeleton) (i : nat) : Stem := nth i sk (mkStem O None []).

Definition add_point (p : Point) (w : Q) (s : Stem) : Stem :=
  mkStem (level s) (parent s) (points s ++ [(p, w)]).

Definition forward (t : TurtleState) : TurtleState :=
  mkTurtle (advance geo (orientation t) (position t)) (orientation t)
    (pen_width t) (colour t).

(** Modelled from the spec: one symbol of the turtle's walk of section 4.2;
    it belongs to [ch_trees.lsystems.gen], which [gui.py] calls as
    [lsystems.gen.construct] and which is not part of it.  A draw advances the
    turtle and adds the point to the current stem; a push saves the frame and
    a pop restores the frame saved last, a hard error on an empty stack;
    neither begins a stem.  The stem marker begins a new stem parented to the
    current position: a child of the stem being drawn, from where the turtle
    stands.  The stem being drawn is saved and restored with the turtle, so
    that no stem is resumed from another place. *)
Definition step (sym : Symbol) (st : Interp) : Error + Interp :=
  match sym with
  | Draw =>
      let t := forward (turtle st) in
      inr (mkInterp t (stack st) (current st)
             (update (current st) (add_point (position t) (pen_width t)) (stems st))
             (ignored st))
  | Move =>
      inr (mkInterp (forward (turtle st)) (stack st) (current st) (stems st)
             (ignored st))
  | Rotate r =>
      let t := turtle st in
      inr (mkInterp
             (mkTurtle (position t) (rotate geo r (orientation t)) (pen_width t)
                (colour t))
             (stack st) (current st) (stems st) (ignored st))
  | Push =>
      let t := turtle st in
      inr (mkInterp t ((t, current st) :: stack st) (current st) (stems st)
             (ignored st))
  | Pop =>
      match stack st with
      | [] => inl MalformedGrammar
      | (t, c) :: rest => inr (mkInterp t rest c (stems st) (ignored st))
      end
  | NewStem =>
      let t := turtle st in
      let child :=
        mkStem (S (level (stem_at (stems st) (current st)))) (Some (current st))
          [(position t, pen_width t)] in
      inr (mkInterp t (stack st) (length (stems st)) (stems st ++ [child])
             (ignored st))
  | Other c =>
      inr (mkInterp (turtle st) (stack st) (current st) (stems st)
             (ignored st ++ [c]))
  end.

Fixpoint run (w : list Symbol) (st : Interp) : Error + Interp :=
  match w with
  | [] => inr st
  | sym :: w' =>
      match step sym st with
      | inl e => inl e
      | inr st' => run w' st'
      end
  end.

(** Modelled from the spec: the interpretation of section 4.2, the walk of
    the whole string from left to right; unmatched brackets abort
    generation, so a push left open at the end is an error as well. *)
Definition interpret (w : list Symbol) : Error + Skeleton :=
  match run w initial with
  | inl e => inl e
  | inr st =>
      match stack st with
      | [] => inr (stems st)
      | _ :: _ => inl MalformedGrammar
      end
  end.

(** Modelled from the spec: [generate(grammar, iterations) -> Skeleton] of
    section 4.2, expansion and then interpretation. *)
Definition generate (g : Grammar) (iterations : nat) : Error + Skeleton :=
  interpret (expand (rules g) iterations (axiom g)).



End Interpreter.

(** ** Brackets of a string *)

Fixpoint pushes (w : list Symbol) : nat :=
  match w with
  | [] => O
  | Push :: w' => S (pushes w')
  | _ :: w' => pushes w'
  end.

Fixpoint pops (w : list Symbol) : nat :=
  match w with
  | [] => O
  | Pop :: w' => S (pops w')
  | _ :: w' => pops w'
  end.

(** Equal push and pop counts, and every pop preceded by its push. *)
Definition well_formed (w : list Symbol) : Prop :=
  pushes w = pops w /\
  forall n : nat, (pops (firstn n w) <= pushes (firstn n w))%nat.




(** Every stem marker stands exactly one open bracket inside the stem being
    drawn.  [opened] counts the brackets opened, and not closed, since the
    stem being drawn began; a push saves the count and a pop restores it. *)
Fixpoint one_bracket_per_stem (opened : nat) (saved : list nat) (w : list Symbol)
    : bool :=
  match w with
  | [] => true
  | Push :: w' => one_bracket_per_stem (S opened) (opened :: saved) w'
  | Pop :: w' =>
      match saved with
      | [] => true
      | opened' :: others => one_bracket_per_stem opened' others w'
      end
  | NewStem :: w' => (opened =? 1) && one_bracket_per_stem 0 saved w'
  | _ :: w' => one_bracket_per_stem opened saved w'
  end.

(** The stems of a string follow its brackets: as where each bracketed
    branch begins with the stem marker and no marker stands elsewhere. *)
Definition stems_follow_brackets (w : list Symbol) : bool :=
  one_bracket_per_stem 0 [] w.

(** The depth after the string, or [None] at a pop on depth 0. *)
Fixpoint scan (d : nat) (w : list Symbol) : option nat :=
  match w with
  | [] => Some d
  | Push :: w' => scan (S d) w'
  | Pop :: w' => match d with O => None | S d' => scan d' w' end
  | _ :: w' => scan d w'
  end.

(** A turtle on the integer lattice: quarter turns in the plane, unit
    steps. *)
Definition compass : Geometry :=
  mkGeometry nat O
    (fun r o =>
       match r with
       | TurnLeft => Nat.modulo (o + 1) 4
       | TurnRight => Nat.modulo (o + 3) 4
       | _ => o
       end)
    (fun o p =>
       let '(x, y, z) := p in
       match o with
       | O => (x, y, z + 1)%Q
       | 1%nat => (x - 1, y, z)%Q
       | 2%nat => (x, y, z - 1)%Q
       | _ => (x + 1, y, z)%Q
       end)
    1%Q.

(** The rule F -> F[+F]F[-F]F of the specification's scenario. *)
Definition bush : Grammar :=
  mkGrammar [Draw]
    [ (Draw, [Draw; Push; Rotate TurnLeft; Draw; Pop; Draw;
              Push; Rotate TurnRight; Draw; Pop; Draw]) ].

(** The same rule with every bracketed branch a stem of its own:
    F -> F[S+F]F[S-F]F, S the stem marker. *)
Definition branching_bush : Grammar :=
  mkGrammar [Draw]
    [ (Draw, [Draw; Push; NewStem; Rotate TurnLeft; Draw; Pop; Draw;
              Push; NewStem; Rotate TurnRight; Draw; Pop; Draw]) ].


(** A grammar without brackets whose axiom begins a stem on the way. *)
Definition marker_outside : Grammar := mkGrammar [Draw; NewStem; Draw] [].

End LSystem.

(* ===================================================================== *)
(** * The mesh builder                                                    *)
(* ===================================================================== *)

Module MeshBuilder.

Import Core.
Local Open Scope list_scope.
Local Open Scope nat_scope.

(** Modelled from the spec: a placed leaf or blossom of section 3 (anchor,
    orientation, style, scale); the placement module is imported by the
    generators, none of which is part of [gui.py]. *)
Record Instance : Type := mkInstance {
  anchor : Point;
  direction : Point;
  blossom : bool;
  style : nat;
  scale : Q;
  scale_x : Q
}.

(** Modelled from the spec: the mesh of section 3, with the vertex groups
    as the range of vertices of each stem. *)
Record Mesh : Type := mkMesh {
  vertices : list Point;
  faces : list (list nat);
  groups : list (nat * (nat * nat))
}.

(** Modelled from the spec: the numeric side of the builder of section 4.4
    (how many vertices the rings of a stem have, where the vertices of a ring
    lie, the outline of an instance in space); the builder takes it as a
    parameter. *)
Record Shapes : Type := mkShapes {
  ring_count : Stem -> nat;
  ring_point : Point -> Q -> nat -> nat -> Point;
  silhouette : Instance -> list Point
}.

Record Builder : Type := mkBuilder {
  mesh : Mesh;
  warnings : list Warning
}.

Definition empty : Builder := mkBuilder (mkMesh [] [] []) [].

Definition dist2 (p q : Point) : Q :=
  let '(x1, y1, z1) := p in
  let '(x2, y2, z2) := q in
  ((x1 - x2) * (x1 - x2) + (y1 - y2) * (y1 - y2) + (z1 - z2) * (z1 - z2))%Q.

(** The index, among [count] vertices from [lo] on, of the one nearest to
    [target]. *)
Definition nearest (vs : list Point) (lo count : nat) (target : Point) : nat :=
  fold_left
    (fun best i =>
       if Qle_bool (dist2 (nth best vs origin) target) (dist2 (nth i vs origin) target)
       then best else i)
    (seq lo count) lo.

(** The quad between vertex [i] of ring [j] and of ring [j + 1], and their
    successors around the rings. *)
Definition quad (base n j i : nat) : list nat :=
  [ base + j * n + i; base + j * n + (S i) mod n;
    base + S j * n + (S i) mod n; base + S j * n + i ].

Definition band (base n j : nat) : list (list nat) := map (quad base n j) (seq 0 n).

(** [k] rings are joined by [k - 1] bands. *)
Definition bands (base n k : nat) : list (list nat) :=
  flat_map (band base n) (seq 0 (Nat.pred k)).

(** The join of a stem's first ring to the vertex [q] of its parent. *)
Definition seam (q base n : nat) : list (list nat) :=
  map (fun i => [q; base + i; base + (S i) mod n]) (seq 0 n).

(** A fan over the outline's vertices. *)
Definition fan (base k : nat) : list (list nat) :=
  map (fun i => [base; base + S i; base + S (S i)]) (seq 0 (k - 2)).

Section Build.

Variable shapes : Shapes.

Definition ring (c : Point) (r : Q) (n : nat) : list Point :=
  map (ring_point shapes c r n) (seq 0 n).

Definition rings (n : nat) (samples : list (Point * Q)) : list Point :=
  flat_map (fun s => ring (fst s) (snd s) n) samples.

Definition group_of (m : Mesh) (stem : nat) : option (nat * nat) :=
  match find (fun g => fst g =? stem) (groups m) with
  | Some g => Some (snd g)
  | None => None
  end.

(** Modelled from the spec: the stem step of the mesh builder of section
    4.4 (rings of a constant vertex count at each sample, quads between
    adjacent rings, a join to the nearest vertex of the parent, vertices
    appended to the one shared buffer); a stem whose rings would have fewer
    than three vertices is skipped as degenerate.  The builder's module is
    not part of [gui.py]. *)
Definition add_stem (id : nat) (s : Stem) (b : Builder) : Builder :=
  let m := mesh b in
  let n := ring_count shapes s in
  if n <? 3 then mkBuilder m (warnings b ++ [DegenerateGeometry])
  else
    let base := length (vertices m) in
    let k := length (points s) in
    let joined :=
      match parent s, points s with
      | Some p, (c, _) :: _ =>
          match group_of m p with
          | Some (lo, S count) => seam (nearest (vertices m) lo (S count) c) base n
          | _ => []
          end
      | _, _ => []
      end in
    mkBuilder
      (mkMesh (vertices m ++ rings n (points s))
         (faces m ++ bands base n k ++ joined)
         (groups m ++ [(id, (base, n * k))]))
      (warnings b).

(** Modelled from the spec: the instance step of the mesh builder of
    section 4.4 (each leaf or blossom an independent quad or fan over its
    outline); an outline of fewer than three points is skipped as
    degenerate. *)
Definition add_instance (inst : Instance) (b : Builder) : Builder :=
  let m := mesh b in
  let outline := silhouette shapes inst in
  let k := length outline in
  if k <? 3 then mkBuilder m (warnings b ++ [DegenerateGeometry])
  else
    let base := length (vertices m) in
    mkBuilder
      (mkMesh (vertices m ++ outline)
         (faces m ++ (if k =? 4 then [seq base 4] else fan base k))
         (groups m))
      (warnings b).

Definition add_stems (sk : Skeleton) (b : Builder) : Builder :=
  fold_left (fun b' p => add_stem (fst p) (snd p) b')
    (combine (seq 0 (length sk)) sk) b.

Definition add_instances (instances : list Instance) (b : Builder) : Builder :=
  fold_left (fun b' inst => add_instance inst b') instances b.

(** Modelled from the spec: [build(skeleton, instances) -> Mesh] of section
    4.4, whose module is not part of [gui.py]. *)
Definition build (sk : Skeleton) (instances : list Instance) : Builder :=
  add_instances instances (add_stems sk empty).

End Build.

(** ** Structural validity *)

Definition valid_face (n : nat) (f : list nat) : Prop :=
  3 <= length f /\ NoDup f /\ Forall (fun i => i < n) f.

Definition valid (m : Mesh) : Prop :=
  Forall (valid_face (length (vertices m))) (faces m).

(** What the builder maintains besides: every group lies in the buffer. *)
Definition sound (b : Builder) : Prop :=
  valid (mesh b) /\
  Forall (fun g => fst (snd g) + snd (snd g) <= length (vertices (mesh b)))
    (groups (mesh b)).

(** Hexagonal rings and square leaves, for running the builder. *)
Definition hexagons : Shapes :=
  mkShapes (fun _ => 6)
    (fun c r n i => let '(x, y, z) := c in (x + r * inject_Z (Z.of_nat i), y, z)%Q)
    (fun inst =>
       let '(x, y, z) := anchor inst in
       [ (x, y, z); (x + scale inst, y, z)%Q; (x + scale inst, y + scale inst, z)%Q;
         (x, y + scale inst, z)%Q ]).

Definition twig : Skeleton :=
  [ mkStem 0 None [(origin, 1%Q); ((0, 0, 1)%Q, (1 # 2)%Q); ((0, 0, 2)%Q, (1 # 4)%Q)];
    mkStem 1 (Some 0) [((0, 0, 1)%Q, (1 # 4)%Q); ((1, 0, 2)%Q, (1 # 8)%Q)] ].

End MeshBuilder.

(* ===================================================================== *)
(** * The parametric generator                                            *)
(* ===================================================================== *)

Module Parametric.

Import Core.
Local Open Scope list_scope.
Local Open Scope nat_scope.

(** ** Parameter sets *)

Inductive Shape : Type :=
| Conical | Spherical | Hemispherical | Cylindrical | TaperedCylindrical
| Flame | InverseConical | TendFlame | CustomShape.

Record PruningParams : Type := mkPruning {
  prune_ratio : Q;
  prune_width : Q;
  prune_width_peak : Q;
  prune_power_low : Q;
  prune_power_high : Q
}.

Record LevelParams : Type := mkLevel {
  split_probability : Q;
  curve : Q;
  curve_variance : Q;
  down_angle : Q
}.

Record LeafParams : Type := mkLeaf {
  leaf_count : Z;
  leaf_shape : Z;
  leaf_scale : Q;
  leaf_scale_x : Q;
  bend_toward_light : Q
}.

Record BlossomParams : Type := mkBlossom {
  blossom_enabled : bool;
  blossom_shape : Z;
  blossom_scale : Q;
  blossom_rate : Q
}.

(** Modelled from the spec: the parameter set of section 3; the preset
    modules ([ch_trees.parametric.tree_params]) that hold such bundles are
    loaded by [gui.py] by name and are not part of it. *)
Record ParameterSet : Type := mkParameterSet {
  shape : Shape;
  base_scale : Q;
  scale_variance : Q;
  level_count : Z;
  ratio : Q;
  ratio_power : Q;
  flare : Q;
  base_splits : Z;
  base_splits_randomize : bool;
  floor_splits : Z;
  per_level : list LevelParams;
  pruning : PruningParams;
  leaf : LeafParams;
  blossom : BlossomParams
}.

(** ** The seeded source of randomness *)

(** Modelled from the spec: the deterministic RNG of section 2, a state
    made from the seed alone and a step that yields a number in [0, 1). *)
Record Rng : Type := mkRng {
  rng_state : Type;
  seed_rng : Z -> rng_state;
  next : rng_state -> Q * rng_state
}.

(** Modelled from the spec: what section 4.1 and section 7 describe in words
    only and the generator takes as a parameter: the validation that comes
    before generation (it names a field out of its range, if there is one),
    lengths, sampled centerlines, the envelope test, split points and counts,
    the bound on retries and the shortening of a retried stem. *)
Record Kernels : Type := mkKernels {
  validate : ParameterSet -> option string;
  retry_limit : nat;
  shorten : Q -> Q;
  samples : ParameterSet -> nat -> nat;
  centerline : ParameterSet -> nat -> Point -> Q -> list Q -> list (Point * Q);
  inside_envelope : PruningParams -> Point -> bool;
  trunk_length : ParameterSet -> Q -> Q;
  child_length : ParameterSet -> nat -> Q -> Q -> Q;
  split_point : Stem -> nat -> nat -> Point;
  level_splits : ParameterSet -> nat -> Q -> nat;
  randomize_factor : Q -> Q
}.

(** A retried stem is generated with reduced length: the shortening of a
    length is a length again, and a smaller one. *)
Definition shortens (K : Kernels) : Prop :=
  forall len : Q, (0 < len)%Q -> (0 < shorten K len)%Q /\ (shorten K len < len)%Q.

Section Generator.

Variable rng : Rng.
Variable K : Kernels.

(** What a request works on: the source of randomness, the stems built so
    far, the warnings, and the number of candidates thrown away. *)
Record World : Type := mkWorld {
  source : rng_state rng;
  arena : Skeleton;
  warnings : list Warning;
  discarded : nat
}.

Definition Gen (A : Type) : Type := World -> A * World.

Definition ret {A} (a : A) : Gen A := fun w => (a, w).

Definition bind {A B} (c : Gen A) (k : A -> Gen B) : Gen B :=
  fun w => let (a, w') := c w in k a w'.

Local Notation "x <- c ;; k" := (bind c (fun x => k))
  (at level 61, c at next level, right associativity).
Local Notation "c ;;; k" := (bind c (fun _ => k))
  (at level 61, right associativity).

Definition draw : Gen Q :=
  fun w =>
    let (x, r) := next rng (source w) in
    (x, mkWorld r (arena w) (warnings w) (discarded w)).

Fixpoint draws (n : nat) : Gen (list Q) :=
  match n with
  | O => ret []
  | S n' => x <- draw ;; xs <- draws n' ;; ret (x :: xs)
  end.

Definition warn (x : Warning) : Gen unit :=
  fun w => (tt, mkWorld (source w) (arena w) (warnings w ++ [x]) (discarded w)).

Definition discard : Gen unit :=
  fun w => (tt, mkWorld (source w) (arena w) (warnings w) (S (discarded w))).

(** Appends the stem and returns its index. *)
Definition append (s : Stem) : Gen nat :=
  fun w =>
    (length (arena w),
     mkWorld (source w) (arena w ++ [s]) (warnings w) (discarded w)).

Fixpoint for_each {A} (l : list A) (body : A -> Gen unit) : Gen unit :=
  match l with
  | [] => ret tt
  | x :: l' => body x ;;; for_each l' body
  end.

(** One candidate stem: its centerline sampled with one draw per sample. *)
Definition candidate (P : ParameterSet) (lvl : nat) (par : option nat)
    (start : Point) (len : Q) : Gen Stem :=
  ds <- draws (samples K P lvl) ;;
  ret (mkStem lvl par (centerline K P lvl start len ds)).

Definition endpoint (s : Stem) : Point := last (map fst (points s)) origin.

(** A pruning ratio of 0 switches pruning off. *)
Definition acceptable (P : ParameterSet) (s : Stem) : bool :=
  Qeq_bool (prune_ratio (pruning P)) 0
  || inside_envelope K (pruning P) (endpoint s).

(** Modelled from the spec: the pruning policy of section 4.1, which belongs
    to [ch_trees.parametric.gen] and is not part of [gui.py]: a candidate whose
    endpoint lies outside the envelope is thrown away and generated again with
    reduced length while retries are left ([attempt] counts them); when none
    is left the candidate at hand is accepted with a [PruningExhausted]
    warning.  The loop is run on [fuel] turns and gives [None] when they do not
    suffice. *)
Fixpoint retry (fuel attempt : nat) (P : ParameterSet) (lvl : nat) (par : option nat)
    (start : Point) (len : Q) : Gen (option Stem) :=
  match fuel with
  | O => ret None
  | S fuel' =>
      s <- candidate P lvl par start len ;;
      if acceptable P s then ret (Some s)
      else if retry_limit K <=? attempt then warn PruningExhausted ;;; ret (Some s)
      else discard ;;; retry fuel' (S attempt) P lvl par start (shorten K len)
  end.

Definition pruned (P : ParameterSet) (lvl : nat) (par : option nat)
    (start : Point) (len : Q) : Gen (option Stem) :=
  retry (S (retry_limit K)) 0 P lvl par start len.

(** The candidate generated at the [j]-th attempt of a stem, from the draws
    [ds]. *)
Definition attempted (P : ParameterSet) (lvl : nat) (par : option nat)
    (start : Point) (len : Q) (j : nat) (ds : list Q) : Stem :=
  mkStem lvl par (centerline K P lvl start (Nat.iter j (shorten K) len) ds).

(** The split count of a stem: at the trunk the floor splits and the base
    splits, the latter multiplied by a drawn factor when randomized; above
    the trunk by the level's split probability. *)
Definition split_count (P : ParameterSet) (lvl : nat) : Gen nat :=
  match lvl with
  | O =>
      base <-
        (if base_splits_randomize P
         then
           x <- draw ;;
           ret (Z.to_nat
                  (Qfloor (inject_Z (base_splits P) * randomize_factor K x)))
         else ret (Z.to_nat (base_splits P))) ;;
      ret (Z.to_nat (floor_splits P) + base)
  | S _ => x <- draw ;; ret (level_splits K P lvl x)
  end.

(** Modelled from the spec: the recursion of section 4.1, a stem and then
    its children level by level until the level count is reached; it belongs
    to [ch_trees.parametric.gen], which is not part of [gui.py].  [fuel] is
    the number of levels still to build. *)
Fixpoint grow (fuel : nat) (P : ParameterSet) (lvl : nat) (par : option nat)
    (start : Point) (len : Q) : Gen unit :=
  match fuel with
  | O => ret tt
  | S fuel' =>
      r <- pruned P lvl par start len ;;
      match r with
      | None => ret tt
      | Some s =>
          id <- append s ;;
          match fuel' with
          | O => ret tt
          | S _ =>
              n <- split_count P lvl ;;
              for_each (seq 0 n)
                (fun i =>
                   x <- draw ;;
                   grow fuel' P (S lvl) (Some id) (split_point K s i n)
                     (child_length K P (S lvl) len x))
          end
      end
  end.

(** The world a request starts from: the source seeded, nothing built. *)
Definition fresh (seed : Z) : World := mkWorld (seed_rng rng seed) [] [] 0.

(** Modelled from the spec: [generate(params, seed) -> Skeleton] of section
    4.1, validation first; it belongs to [ch_trees.parametric.gen], which
    [gui.py] calls as [parametric.gen.construct] and which is not part of
    it. *)
Definition generate (P : ParameterSet) (seed : Z) : World -> (Error + Skeleton) * World :=
  fun w =>
    match validate K P with
    | Some f => (inl (InvalidParameter f), w)
    | None =>
        let (_, w') :=
          (x <- draw ;;
           grow (Z.to_nat (level_count P)) P 0 None origin (trunk_length K P x))
            (fresh seed) in
        (inr (arena w'), w')
    end.

(** The number of [PruningExhausted] warnings. *)
Definition exhausted (ws : list Warning) : nat :=
  length (filter (fun x => match x with PruningExhausted => true | _ => false end) ws).

(** A computation all of whose runs relate the world before to the world
    after by [R]. *)
Definition keeps (R : World -> World -> Prop) {A} (c : Gen A) : Prop :=
  forall w, R w (snd (c w)).



(** Every stem built lies below level [n]. *)
Definition below (n : nat) (w w' : World) : Prop :=
  exists new, arena w' = arena w ++ new /\ Forall (fun s => level s < n) new.

End Generator.

Arguments ret {rng A} a.
Arguments bind {rng A B} c k.
Arguments keeps {rng} R {A} c.
Arguments for_each {rng A} l body.
Arguments warn {rng} x.
Arguments discard {rng}.
Arguments append {rng} s.

(** ** A small generator to run *)

(** A linear congruential source. *)
Definition lcg : Rng :=
  mkRng Z (fun seed => Z.modulo seed 2147483648)
    (fun st =>
       let st' := Z.modulo (1103515245 * st + 12345) 2147483648 in
       (Qmake st' 2147483648, st')).

Definition straight : Kernels := {|
  validate := fun P =>
    if (1 <=? level_count P)%Z && (level_count P <=? 6)%Z then None
    else Some "levelCount";
  retry_limit := 3;
  shorten := fun len => (len * (9 # 10))%Q;
  samples := fun _ _ => 2;
  centerline := fun P lvl start len ds =>
    let '(x, y, z) := start in
    [ (start, (len * ratio P)%Q);
      ((x + len * inject_Z (Z.of_nat lvl) * nth 0 ds 0, y, z + len)%Q,
       (len * ratio P * (1 # 2))%Q) ];
  inside_envelope := fun pr p =>
    let '(x, y, z) := p in Qle_bool z (prune_width pr * 20)%Q;
  trunk_length := fun P x => (base_scale P + scale_variance P * x)%Q;
  child_length := fun P lvl len x => (len * (1 # 2))%Q;
  split_point := fun s i n => last (map fst (points s)) origin;
  level_splits := fun P lvl x => 2;
  randomize_factor := fun x => ((1 # 2) + x)%Q
|}.

(** The customizer's defaults, with two levels, two base splits and three
    leaves. *)
Definition sapling : ParameterSet := {|
  shape := Conical;
  base_scale := 13;
  scale_variance := 3;
  level_count := 2;
  ratio := 0.015;
  ratio_power := 1.2;
  flare := 0.6;
  base_splits := 2;
  base_splits_randomize := false;
  floor_splits := 0;
  per_level := [];
  pruning := mkPruning 0 0.5 0.5 0.5 0.5;
  leaf := mkLeaf 3 1 0.17 1 0.6;
  blossom := mkBlossom false 1 1 0
|}.

(** The same with a pruning envelope that no trunk fits. *)
Definition cramped : ParameterSet := {|
  shape := Conical;
  base_scale := 13;
  scale_variance := 3;
  level_count := 1;
  ratio := 0.015;
  ratio_power := 1.2;
  flare := 0.6;
  base_splits := 0;
  base_splits_randomize := false;
  floor_splits := 0;
  per_level := [];
  pruning := mkPruning 1 0.1 0.5 0.5 0.5;
  leaf := mkLeaf 3 1 0.17 1 0.6;
  blossom := mkBlossom false 1 1 0
|}.

(** A world a former request has left behind. *)
Definition used : World lcg :=
  mkWorld lcg 424242%Z [mkStem 0 None []] [PruningExhausted] 5.

End Parametric.


(* ===================================================================== *)
(** * [ch_trees/gui.py]: the two blocks of [_construct], repeated presses  *)
(* ===================================================================== *)

Module GuiSteps.

Import Py Bpy Gui.

Definition simplifying_message : string :=
  "Simplifying tree branch geometry. Blender will appear to crash; be patient."
    ++ nl.

Definition complete_message : string :=
  "Geometry simplification complete" ++ nl ++ nl.

Section Steps.

Context {Host Params : Type}.
Variable lib : Imports Host Params.

(** The first block of [_construct]: the [if]/[else] on the module name. *)
Definition generation_step (s : Scene) : M Host Params unit :=
  let mod_name := selected_module s in
  if String.prefix "ch_trees.parametric" mod_name then
    bind (log (Call_import mod_name)) (fun _ =>
    bind (foreign (import_ lib mod_name)) (fun _ =>
    bind (log (Call_reload mod_name)) (fun _ =>
    bind (foreign (imp_reload lib mod_name)) (fun _ =>
    bind (foreign (mod_params lib mod_name)) (fun params =>
    bind (log (Call_parametric_construct params (seed_input s) (render_input s)
                 (render_output_path_input s) (generate_leaves_input s))) (fun _ =>
    foreign (parametric_gen_construct lib params (seed_input s) (render_input s)
               (render_output_path_input s) (generate_leaves_input s))))))))
  else
    bind (log (Call_lsystems_construct mod_name (generate_leaves_input s))) (fun _ =>
    foreign (lsystems_gen_construct lib mod_name (generate_leaves_input s))).

(** The body of [if scene.simplify_geometry_input:]. *)
Definition simplification_step (context : Context) : M Host Params unit :=
  bind (foreign (import_utilities lib)) (fun _ =>
  bind (sys_stdout_write simplifying_message) (fun _ =>
  bind sys_stdout_flush (fun _ =>
  bind (try_except
          (bind (log Call_simplify_branch_geometry) (fun _ =>
           foreign (simplify_branch_geometry lib context)))
          is_Exception
          (fun ex =>
             bind (module_getattr traceback "print_exec") (fun print_exec =>
             bind (call print_exec) (fun printed =>
             bind (sys_stdout_write (nl ++ str printed ++ nl)) (fun _ =>
             sys_stdout_flush))))) (fun _ =>
  bind (sys_stdout_write complete_message) (fun _ =>
  sys_stdout_flush))))).

(** What follows one another while the panel is open: the button is
    pressed with a context, or the interpreter runs one of the threads
    started so far, by its place among them; a place beyond them runs
    nothing. *)
Inductive Event : Type :=
| Press (context : Context)
| Run (thread : nat).

Definition run_started (thread : nat) : M Host Params unit :=
  fun w =>
    match nth_error (started w) thread with
    | Some t => run_thread lib t w
    | None => (Return tt, w)
    end.

(** The events one after the other; the values the presses hand back. *)
Fixpoint session (events : list Event) : M Host Params (list (list OperatorReturn)) :=
  match events with
  | [] => ret []
  | Press context :: rest =>
      bind (execute context) (fun r =>
      bind (session rest) (fun rs => ret (r :: rs)))
  | Run thread :: rest =>
      bind (run_started thread) (fun _ => session rest)
  end.

End Steps.

(** The contexts of the presses, in order. *)
Definition presses (events : list Event) : list Context :=
  flat_map (fun e => match e with Press context => [context] | Run _ => [] end) events.

(** The calls of a generator, and the call of the simplification. *)
Definition is_generator_call {Params : Type} (c : Call Params) : bool :=
  match c with
  | Call_parametric_construct _ _ _ _ _ | Call_lsystems_construct _ _ => true
  | _ => false
  end.

Definition is_simplify_call {Params : Type} (c : Call Params) : bool :=
  match c with
  | Call_simplify_branch_geometry => true
  | _ => false
  end.

Import GuiInstances.

(** The L-system generator fails. *)
Definition lib_lsystems_fails : Imports Host Params := {|
  import_ := fun _ h => (Return tt, h);
  imp_reload := fun _ h => (Return tt, h);
  mod_params := fun _ h => (Return 7%nat, h);
  parametric_gen_construct := fun _ _ _ _ _ h => (Return tt, (h ++ ["tree"])%list);
  lsystems_gen_construct := fun name _ h =>
    (Raise (mkExn ImportError ("No module named '" ++ name ++ "'")), h);
  import_utilities := fun h => (Return tt, h);
  simplify_branch_geometry := fun _ h => (Return tt, h)
|}.

(** The parametric generator fails after it has made a trunk. *)
Definition lib_parametric_fails : Imports Host Params := {|
  import_ := fun _ h => (Return tt, h);
  imp_reload := fun _ h => (Return tt, h);
  mod_params := fun _ h => (Return 7%nat, h);
  parametric_gen_construct := fun _ _ _ _ _ h =>
    (Raise (mkExn ValueError "math domain error"), (h ++ ["trunk"])%list);
  lsystems_gen_construct := fun _ _ h => (Return tt, (h ++ ["lsystem tree"])%list);
  import_utilities := fun h => (Return tt, h);
  simplify_branch_geometry := fun _ h => (Return tt, h)
|}.

(** The user interrupts the simplification. *)
Definition lib_simplify_interrupted : Imports Host Params := {|
  import_ := fun _ h => (Return tt, h);
  imp_reload := fun _ h => (Return tt, h);
  mod_params := fun _ h => (Return 7%nat, h);
  parametric_gen_construct := fun _ _ _ _ _ h => (Return tt, (h ++ ["tree"])%list);
  lsystems_gen_construct := fun _ _ h => (Return tt, (h ++ ["lsystem tree"])%list);
  import_utilities := fun h => (Return tt, h);
  simplify_branch_geometry := fun _ h =>
    (Raise (mkExn KeyboardInterrupt ""), h)
|}.

(** Parametric mode with the "Custom" entry selected. *)
Definition custom_selected : Assigned :=
  untouched "custom" "ch_trees.lsystems.sys_defs.lsys1" "/home/user/treegen_render.png".

(** L-system mode. *)
Definition lsystem_mode : Assigned := assign_method "lsystem" panel_defaults.

(** Two presses, the thread of the first run in between and that of the
    second not at all. *)
Definition two_presses : list Event :=
  [ Press (mkContext (scene_of panel_defaults)); Run 0%nat;
    Press (mkContext (scene_of lsystem_mode)); Run 0%nat ].

End GuiSteps.

(* ===================================================================== *)
(** * [ch_trees/gui.py]: [TreeGenPanel.draw]                              *)
(* ===================================================================== *)

Module Panel.

Import Py Bpy Gui.
Local Open Scope list_scope.

(** What a layout holds: rows of widgets, separators, operator buttons. *)
Inductive Widget : Type :=
| Prop_ (name : string)
| Label (text : string).

Inductive Item : Type :=
| Row (widgets : list Widget)
| Separator
| Operator (idname : string).

Definition Layout : Type := list Item.

Definition UI (A : Type) : Type := Layout -> Result A * Layout.

Definition ret {A} (a : A) : UI A := fun l => (Return a, l).

Definition bind {A B} (c : UI A) (k : A -> UI B) : UI B :=
  fun l =>
    match c l with
    | (Return a, l') => k a l'
    | (Raise e, l') => (Raise e, l')
    end.

Definition lift {A} (r : Result A) : UI A := fun l => (r, l).

(** [layout.row()]: a new, empty row at the end; the row object is its
    place in the layout. *)
Definition layout_row : UI nat :=
  fun l => (Return (length l), l ++ [Row []]).

Definition add_widget (w : Widget) (it : Item) : Item :=
  match it with
  | Row ws => Row (ws ++ [w])
  | Separator => Separator
  | Operator idname => Operator idname
  end.

(** [row.prop(scene, prop)] and [row.label(label)]. *)
Definition row_prop (row : nat) (prop : string) : UI unit :=
  fun l => (Return tt, Core.update row (add_widget (Prop_ prop)) l).

Definition row_label (row : nat) (label : string) : UI unit :=
  fun l => (Return tt, Core.update row (add_widget (Label label)) l).

Definition layout_separator : UI unit :=
  fun l => (Return tt, l ++ [Separator]).

Definition layout_operator (idname : string) : UI unit :=
  fun l => (Return tt, l ++ [Operator idname]).

(** The truth value of a string: empty is false. *)
Definition truthy (s : string) : bool := negb (String.eqb s "").

(** [label_row(label, prop, separator=True, one_row=False)]. *)
Definition label_row (label prop : string) (separator one_row : bool) : UI unit :=
  bind layout_row (fun row =>
  bind (if one_row || negb (truthy label) then
          bind (row_prop row prop) (fun _ =>
          if truthy label then row_label row label else ret tt)
        else
          bind (row_label row label) (fun _ =>
          bind layout_row (fun row' =>
          row_prop row' prop))) (fun _ =>
  if separator then layout_separator else ret tt)).

(** A value read off the scene by name. *)
Inductive Attr : Type :=
| AStr (s : string)
| AInt (z : Z)
| ABool (b : bool).

(** The attributes of a scene, with their values. *)
Definition scene_attributes (s : Scene) : list (string * Attr) :=
  [ ("tree_gen_method_input", AStr (tree_gen_method_input s));
    ("para_tree_type_input", AStr (para_tree_type_input s));
    ("lsys_tree_type_input", AStr (lsys_tree_type_input s));
    ("seed_input", AInt (seed_input s));
    ("generate_leaves_input", ABool (generate_leaves_input s));
    ("simplify_geometry_input", ABool (simplify_geometry_input s));
    ("render_input", ABool (render_input s));
    ("render_output_path_input", AStr (render_output_path_input s));
    ("tree_shape_input", AInt (tree_shape_input s));
    ("tree_base_splits_randomize_input", ABool (tree_base_splits_randomize_input s));
    ("tree_base_splits_limit_input", AInt (tree_base_splits_limit_input s)) ].

(** [scene.<name>]: an attribute that was never set on the scene type
    raises [AttributeError]. *)
Definition scene_getattr (s : Scene) (name : string) : Result Attr :=
  match find (fun p => String.eqb (fst p) name) (scene_attributes s) with
  | Some p => Return (snd p)
  | None =>
      Raise (mkExn AttributeError
               ("'Scene' object has no attribute '" ++ name ++ "'"))
  end.

Definition is_str (v : Attr) (s : string) : bool :=
  match v with
  | AStr s' => String.eqb s' s
  | _ => false
  end.

Definition is_int (v : Attr) (z : Z) : bool :=
  match v with
  | AInt z' => Z.eqb z' z
  | _ => false
  end.

(** [TreeGen.bl_idname]. *)
Definition bl_idname : string := "object.tree_gen".

(** [TreeGenPanel.draw]. *)
Definition draw (context : Context) : UI unit :=
  let scene := scene context in
  bind (label_row "Method:" "tree_gen_method_input" true false) (fun _ =>
  let mode := tree_gen_method_input scene in
  bind (label_row "Tree Type:"
          (if String.eqb mode "parametric" then "para_tree_type_input"
           else "lsys_tree_type_input") true false) (fun _ =>
  bind (if String.eqb mode "parametric"
        then label_row "Seed:" "seed_input" true false
        else ret tt) (fun _ =>
  bind (label_row "" "generate_leaves_input" false true) (fun _ =>
  bind (label_row "" "simplify_geometry_input" true true) (fun _ =>
  bind (if String.eqb mode "parametric" then
          bind (label_row "" "render_input" false true) (fun _ =>
          bind (if render_input scene
                then label_row "Render output path:" "render_output_path_input"
                       false false
                else ret tt) (fun _ =>
          layout_separator))
        else ret tt) (fun _ =>
  bind (if String.eqb mode "parametric" then
          bind (lift (scene_getattr scene "parametric_tree_type_input")) (fun v =>
          ret (is_str v "custom"))
        else ret false) (fun custom =>
  bind (if custom then
          bind layout_separator (fun _ =>
          bind layout_row (fun _ =>
          bind (lift (scene_getattr scene "tree_shape_input")) (fun shape =>
          if is_int shape 8 then ret tt else ret tt)))
        else ret tt) (fun _ =>
  bind layout_separator (fun _ =>
  bind layout_row (fun _ =>
  layout_operator bl_idname)))))))))).

(** What one call of [label_row] lays out. *)
Definition label_row_items (label prop : string) (separator one_row : bool)
    : list Item :=
  (if one_row || negb (truthy label)
   then [Row (Prop_ prop :: (if truthy label then [Label label] else []))]
   else [Row [Label label]; Row [Prop_ prop]])
  ++ (if separator then [Separator] else []).

(** The properties a layout shows, in order, and whether it has a button. *)
Definition shown_in (it : Item) : list string :=
  match it with
  | Row ws =>
      flat_map (fun w => match w with Prop_ n => [n] | Label _ => [] end) ws
  | _ => []
  end.

Definition shown (l : Layout) : list string := flat_map shown_in l.

Definition labels_in (it : Item) : list string :=
  match it with
  | Row ws =>
      flat_map (fun w => match w with Label t => [t] | Prop_ _ => [] end) ws
  | _ => []
  end.

Definition labels (l : Layout) : list string := flat_map labels_in l.

Definition is_operator (it : Item) : bool :=
  match it with
  | Operator _ => true
  | _ => false
  end.

Definition is_row (it : Item) : bool :=
  match it with
  | Row _ => true
  | _ => false
  end.

Definition is_separator (it : Item) : bool :=
  match it with
  | Separator => true
  | _ => false
  end.

(** The eight inputs the class body of [TreeGen] declares. *)
Definition operator_inputs : list string :=
  [ "tree_gen_method_input"; "para_tree_type_input"; "lsys_tree_type_input";
    "seed_input"; "generate_leaves_input"; "simplify_geometry_input";
    "render_input"; "render_output_path_input" ].

End Panel.

(* ===================================================================== *)
(** * [ch_trees/gui.py]: [_get_tree_types]                                *)
(* ===================================================================== *)

Module TreeTypes.

Import Bpy.

(** What can leave [_get_tree_types]: an index out of range, the read of a
    name that is not bound, or an error of [os.listdir]. *)
Inductive Error : Type :=
| IndexError (msg : string)
| NameError (msg : string)
| OSError (msg : string).

Definition Result (A : Type) : Type := (Error + A)%type.

Definition bind {A B} (c : Result A) (k : A -> Result B) : Result B :=
  match c with
  | inl e => inl e
  | inr a => k a
  end.

(** The folder as [os.listdir] and [os.path.isfile] see it. *)
Record FileSystem : Type := mkFileSystem {
  listdir : string -> Result (list string);
  isfile : string -> bool
}.

(** ** Strings *)

(** [s.split(c)] for a separator of one character. *)
Fixpoint split (c : ascii) (s : string) : list string :=
  match s with
  | EmptyString => [EmptyString]
  | String a s' =>
      if Ascii.eqb a c then EmptyString :: split c s'
      else
        match split c s' with
        | [] => [String a EmptyString]
        | h :: t => String a h :: t
        end
  end.

(** [s.replace(a, b)] for single characters. *)
Fixpoint replace (a b : ascii) (s : string) : string :=
  match s with
  | EmptyString => EmptyString
  | String c s' => String (if Ascii.eqb c a then b else c) (replace a b s')
  end.

Definition startswith (s p : string) : bool := String.prefix p s.

Fixpoint endswith_char (s : string) (c : ascii) : bool :=
  match s with
  | EmptyString => false
  | String a EmptyString => Ascii.eqb a c
  | String _ s' => endswith_char s' c
  end.

(** ** Paths *)

Definition sep : ascii := "/"%char.

(** [os.path.join(a, *parts)] on POSIX. *)
Definition path_join (a : string) (parts : list string) : string :=
  fold_left
    (fun path b =>
       if startswith b (String sep EmptyString) then b
       else if String.eqb path "" || endswith_char path sep then path ++ b
       else path ++ String sep b)
    parts a.

(** [l[-1]]. *)
Definition last_item (l : list string) : Result string :=
  match rev l with
  | [] => inl (IndexError "list index out of range")
  | x :: _ => inr x
  end.

(** [l[0]]. *)
Definition first_item (l : list string) : Result string :=
  match l with
  | [] => inl (IndexError "list index out of range")
  | x :: _ => inr x
  end.

(** The read of a name that neither the function nor the module binds. *)
Definition unbound {A} (name : string) : Result A :=
  inl (NameError ("name '" ++ name ++ "' is not defined")).

(** ** The body of the loop, up to the inner loop's end *)

Definition module_path_parts : list (list string) :=
  [ ["parametric"; "tree_params"]; ["lsystems"; "sys_defs"] ].

(** [f.split('.')[0]]. *)
Definition stem (f : string) : string := hd EmptyString (split "."%char f).

(** ['{}.{}.{}'.format(addon_name, '.'.join(modparts), f)]. *)
Definition module_of (addon_name : string) (modparts : list string) (f : string)
    : string :=
  addon_name ++ "." ++ String.concat "." modparts ++ "." ++ f.

(** The inner loop's assignment to [quaking_aspen]. *)
Definition pick_default (first : string) (pairs : list (string * string)) : string :=
  fold_left
    (fun quaking_aspen mt =>
       if String.eqb (snd mt) "Quaking Aspen" then fst mt else quaking_aspen)
    pairs first.

Section Scan.

Variable fs : FileSystem.

(** [str.title()]: it works on the code points of a string by the case
    tables of Unicode and is taken as it is. *)
Variable str_title : string -> string.

(** [f.replace('_', ' ').title()]. *)
Definition title_of (f : string) : string :=
  str_title (replace "_"%char " "%char f).

(** Lines 27 to 44 for one [modparts]: the options and the default. *)
Definition scan (addon_name addon_path : string) (modparts : list string)
    : Result (list (list string) * string) :=
  let path := path_join addon_path modparts in
  bind (listdir fs path) (fun names =>
  let files :=
    map stem (filter (fun f => isfile fs (path_join path [f])) names) in
  let modules := map (module_of addon_name modparts) files in
  let titles := map title_of files in
  bind (first_item modules) (fun quaking_aspen =>
  let quaking_aspen := pick_default quaking_aspen (combine modules titles) in
  let options := map (fun mt => [fst mt; snd mt; snd mt]) (combine modules titles) in
  inr (options, quaking_aspen))).

(** The loop over [module_path_parts]: each turn ends on
    [enum_options.append(options)], and the function assigns only
    [enums_options]. *)
Fixpoint scan_all (addon_name addon_path : string) (todo : list (list string))
    (quaking_aspen : option string) : Result (option string) :=
  match todo with
  | [] => inr quaking_aspen
  | modparts :: rest =>
      bind (scan addon_name addon_path modparts) (fun r =>
      bind (unbound "enum_options") (fun enum_options : list (list (list string)) =>
      scan_all addon_name addon_path rest (Some (snd r))))
  end.

(** [enum_options[0].append(('custom', 'Custom' 'Custom parameters'))]: the
    two adjacent literals are one string, the tuple has two members. *)
Definition append_custom (enum_options : list (list (list string)))
    : Result (list (list (list string))) :=
  match enum_options with
  | [] => inl (IndexError "list index out of range")
  | first :: rest =>
      inr ((first ++ [["custom"; "CustomCustom parameters"]])%list :: rest)
  end.

(** [_get_tree_types()], with [__file__] as [file]; each drop-down of the
    result as its items and its default. *)
Definition _get_tree_types (file : string)
    : Result (list (list (list string) * string)) :=
  let addon_path_parts := removelast (split sep file) in
  bind (last_item addon_path_parts) (fun addon_name =>
  let addon_path := String.concat (String sep EmptyString) addon_path_parts in
  bind (scan_all addon_name addon_path module_path_parts None) (fun quaking_aspen =>
  bind (unbound "enum_options") (fun enum_options =>
  bind (append_custom enum_options) (fun enum_options =>
  inr (map (fun opts =>
              (opts, match quaking_aspen with Some m => m | None => EmptyString end))
         enum_options))))).

End Scan.

(** ** Folders and names to run the scan on *)

Definition is_lower (c : ascii) : bool :=
  let n := nat_of_ascii c in (97 <=? n)%nat && (n <=? 122)%nat.

Definition is_upper (c : ascii) : bool :=
  let n := nat_of_ascii c in (65 <=? n)%nat && (n <=? 90)%nat.

Definition upper (c : ascii) : ascii :=
  if is_lower c then ascii_of_nat (nat_of_ascii c - 32) else c.

Definition lower (c : ascii) : ascii :=
  if is_upper c then ascii_of_nat (nat_of_ascii c + 32) else c.

(** What [str.title()] gives on a name of ASCII characters: a letter after a
    letter is lowered, any other letter is raised. *)
Fixpoint title_from (previous_is_cased : bool) (s : string) : string :=
  match s with
  | EmptyString => EmptyString
  | String c s' =>
      if is_lower c || is_upper c then
        String (if previous_is_cased then lower c else upper c) (title_from true s')
      else String c (title_from false s')
  end.

Definition ascii_title (s : string) : string := title_from false s.

(** An add-on folder with two presets, a cache folder and a hidden file. *)
Definition addon_folder : FileSystem :=
  mkFileSystem
    (fun path =>
       if String.eqb path "/addons/ch_trees/parametric/tree_params"
       then inr ["quaking_aspen.py"; "black_oak.py"; "__pycache__"; ".DS_Store"]
       else if String.eqb path "/addons/ch_trees/lsystems/sys_defs"
       then inr ["lsys1.py"]
       else inl (OSError ("No such file or directory: '" ++ path ++ "'")))
    (fun path => negb (String.eqb (stem path) path)).

(** The same add-on with no file in its preset folder. *)
Definition empty_folder : FileSystem :=
  mkFileSystem (fun _ => inr []) (fun _ => true).

(** The add-on without its L-system definitions. *)
Definition no_lsystems_folder : FileSystem :=
  mkFileSystem
    (fun path =>
       if String.eqb path "/addons/ch_trees/parametric/tree_params"
       then inr ["quaking_aspen.py"; "black_oak.py"; "__pycache__"; ".DS_Store"]
       else inl (OSError ("No such file or directory: '" ++ path ++ "'")))
    (fun path => negb (String.eqb (stem path) path)).

(** The folder of the parametric presets, from [__file__]. *)
Definition presets_path (file : string) : string :=
  path_join (String.concat (String sep EmptyString) (removelast (split sep file)))
    ["parametric"; "tree_params"].

End TreeTypes.

(* ===================================================================== *)
(** * Facts about [ch_trees/gui.py]                                       *)
(* ===================================================================== *)

Module GuiFacts.

Import Py Bpy Gui.

(** ** Hard limits *)

Lemma int_assign_id (p : IntProperty) (v : Z) :
  int_min p <= v <= int_max p -> int_assign p v = v.
Proof.
  intros Hv. unfold int_assign.
  destruct (Z.ltb_spec v (int_min p)); [lia |].
  destruct (Z.ltb_spec (int_max p) v); [lia | reflexivity].
Qed.

(** ** The monad *)

Section MonadFacts.

Context {Host Params : Type}.
Implicit Types w : World Host Params.

Lemma bind_Return {A B} (c : M Host Params A) (k : A -> M Host Params B) w a w' :
  c w = (Return a, w') -> bind c k w = k a w'.
Proof. intros H. unfold bind. rewrite H. reflexivity. Qed.

Lemma bind_Raise {A B} (c : M Host Params A) (k : A -> M Host Params B) w e w' :
  c w = (Raise e, w') -> bind c k w = (Raise e, w').
Proof. intros H. unfold bind. rewrite H. reflexivity. Qed.

Lemma foreign_eq {A} (f : Host -> Result A * Host) w r h :
  f (host w) = (r, h) ->
  foreign f w = (r, mkWorld (stdout w) (stderr w) (calls w) (started w) h).
Proof. intros H. unfold foreign. rewrite H. reflexivity. Qed.

Lemma bind_log {B} (c : Call Params) (k : unit -> M Host Params B) w :
  bind (log c) k w =
  k tt (mkWorld (stdout w) (stderr w) (calls w ++ [c]) (started w) (host w)).
Proof. reflexivity. Qed.

Lemma bind_stdout_write {B} (s : string) (k : unit -> M Host Params B) w :
  bind (sys_stdout_write s) k w =
  k tt (mkWorld (stdout w ++ [s]) (stderr w) (calls w) (started w) (host w)).
Proof. reflexivity. Qed.

Lemma bind_flush {B} (k : unit -> M Host Params B) w :
  bind sys_stdout_flush k w = k tt w.
Proof. reflexivity. Qed.

Lemma appends_ret {A} (a : A) : appends_calls (ret a : M Host Params A).
Proof. intros w. exists []. simpl. now rewrite app_nil_r. Qed.

Lemma appends_raise {A} e : appends_calls (raise e : M Host Params A).
Proof. intros w. exists []. simpl. now rewrite app_nil_r. Qed.

Lemma appends_log c : appends_calls (log c : M Host Params unit).
Proof. intros w. exists [c]. reflexivity. Qed.

Lemma appends_stdout s : appends_calls (sys_stdout_write s : M Host Params unit).
Proof. intros w. exists []. simpl. now rewrite app_nil_r. Qed.

Lemma appends_stderr s : appends_calls (sys_stderr_write s : M Host Params unit).
Proof. intros w. exists []. simpl. now rewrite app_nil_r. Qed.

Lemma appends_flush : appends_calls (sys_stdout_flush : M Host Params unit).
Proof. apply appends_ret. Qed.

Lemma appends_foreign {A} (f : Host -> Result A * Host) :
  appends_calls (foreign f : M Host Params A).
Proof.
  intros w. exists []. unfold foreign. destruct (f (host w)). simpl.
  now rewrite app_nil_r.
Qed.

Lemma appends_bind {A B} (c : M Host Params A) (k : A -> M Host Params B) :
  appends_calls c -> (forall a, appends_calls (k a)) -> appends_calls (bind c k).
Proof.
  intros Hc Hk w. unfold bind. destruct (Hc w) as [r1 H1].
  destruct (c w) as [[a | e] w1]; simpl in H1.
  - destruct (Hk a w1) as [r2 H2]. exists (r1 ++ r2)%list.
    rewrite H2, H1. now rewrite app_assoc.
  - exists r1. exact H1.
Qed.

Lemma appends_try_except {A} (body : M Host Params A) catches handler :
  appends_calls body -> (forall e, appends_calls (handler e)) ->
  appends_calls (try_except body catches handler).
Proof.
  intros Hb Hh w. unfold try_except. destruct (Hb w) as [r1 H1].
  destruct (body w) as [[a | e] w1]; simpl in H1.
  - exists r1. exact H1.
  - destruct (catches (exn_class e)).
    + destruct (Hh e w1) as [r2 H2]. exists (r1 ++ r2)%list.
      rewrite H2, H1. now rewrite app_assoc.
    + exists r1. exact H1.
Qed.

Lemma appends_module_getattr m attr : appends_calls (module_getattr m attr : M Host Params Value).
Proof.
  unfold module_getattr. destruct (has_name m attr);
    [apply appends_ret | apply appends_raise].
Qed.

Lemma appends_call f : appends_calls (call f : M Host Params Value).
Proof.
  destruct f; simpl; try apply appends_raise.
  apply appends_bind; [apply appends_stderr | intros; apply appends_ret].
Qed.

End MonadFacts.

Create HintDb appends.

#[export] Hint Resolve appends_ret appends_raise appends_log appends_stdout
  appends_stderr appends_flush appends_foreign appends_module_getattr
  appends_call : appends.

Ltac appends :=
  repeat first
    [ apply appends_bind; [| intros ?]
    | apply appends_try_except; [| intros ?]
    | solve [auto with appends] ].

End GuiFacts.

Module GuiTheorems.

Import Py Bpy Gui GuiInstances GuiStatements GuiFacts.

Lemma seed_input_assign (seed : Z) (a : Assigned) :
  seed_input (scene_of (assign_seed seed a)) = int_assign seed_input_prop seed.
Proof. reflexivity. Qed.

(** C9 (amended): a seed between 0 and 9999999 is stored as it is and is
    the seed argument of the call of the parametric generator. *)
Theorem seed_within_limits_reaches_generator (seed : Z) :
  0 <= seed <= 9999999 -> seed_reaches_generator seed.
Proof.
  intros Hseed Host Params lib a w params h1 h2 h3 s Hpre Himp Hrel Hpar.
  assert (Hs : seed_input s = seed).
  { subst s. rewrite seed_input_assign. apply int_assign_id. simpl. lia. }
  unfold _construct. cbn [scene]. fold s. rewrite Hpre, Hs.
  set (K := (if simplify_geometry_input s then _ else ret tt)).
  assert (HK : appends_calls K).
  { subst K. destruct (simplify_geometry_input s); appends. }
  unfold bind at 1.
  rewrite bind_log.
  erewrite bind_Return by (apply foreign_eq; exact Himp).
  rewrite bind_log.
  erewrite bind_Return by (apply foreign_eq; exact Hrel).
  erewrite bind_Return by (apply foreign_eq; exact Hpar).
  rewrite bind_log.
  unfold foreign, log; cbn [host calls stdout stderr started snd fst].
  destruct (parametric_gen_construct lib params seed _ _ _ h3) as [[[] | e] h4].
  - destruct (HK (mkWorld (stdout w) (stderr w)
                    (((calls w ++ [Call_import (selected_module s)]) ++
                      [Call_reload (selected_module s)]) ++
                     [Call_parametric_construct params seed (render_input s)
                        (render_output_path_input s) (generate_leaves_input s)])
                    (started w) h4)) as [rest Hrest].
    exists rest. rewrite Hrest. cbn [calls].
    now rewrite <- !app_assoc.
  - exists []. cbn [snd calls]. now rewrite <- !app_assoc, app_nil_r.
Qed.

Lemma seed_within_limits_witness :
  0 <= 42 <= 9999999 /\ seed_reaches_generator 42.
Proof.
  split; [lia | apply (seed_within_limits_reaches_generator 42); lia].
Defined.

(** C9 (as stated): it is not so that every non-negative seed reaches the
    generator unchanged: 10000000 is stored, and passed on, as 9999999. *)
Lemma seed_above_limit_is_not_passed_unchanged :
  ~ (forall seed : Z, 0 <= seed -> seed_reaches_generator seed).
Proof.
  intros H.
  destruct (H 10000000 ltac:(lia) Host Params lib_ok panel_defaults empty_world
              7%nat [] [] [] eq_refl eq_refl eq_refl eq_refl) as [rest Hrest].
  vm_compute in Hrest. discriminate Hrest.
Qed.

Section Simplification.

Context {Host Params : Type}.
Variable lib : Imports Host Params.

Lemma print_exec_is_no_attribute :
  has_name traceback "print_exec" = false.
Proof. reflexivity. Qed.

Lemma failed_simplification_escapes (a : Assigned) (w w1 : World Host Params)
    (h2 h3 : Host) (e : Exn) :
  _construct lib (mkContext (scene_of (assign_simplify_geometry false a))) w
    = (Return tt, w1) ->
  import_utilities lib (host w1) = (Return tt, h2) ->
  simplify_branch_geometry lib
    (mkContext (scene_of (assign_simplify_geometry true a))) h2 = (Raise e, h3) ->
  is_Exception (exn_class e) = true ->
  _construct lib (mkContext (scene_of (assign_simplify_geometry true a))) w =
    (Raise (mkExn AttributeError "module 'traceback' has no attribute 'print_exec'"),
     mkWorld
       (stdout w1 ++
        ["Simplifying tree branch geometry. Blender will appear to crash; be patient."
           ++ nl])
       (stderr w1) (calls w1 ++ [Call_simplify_branch_geometry]) (started w1) h3).
Proof.
  intros Hoff Himp Hsim Hexc.
  set (on := mkContext (scene_of (assign_simplify_geometry true a))) in *.
  unfold _construct in *. cbn [scene] in *.
  change (simplify_geometry_input (scene_of (assign_simplify_geometry false a)))
    with false in Hoff.
  change (simplify_geometry_input (scene on)) with true.
  change (selected_module (scene_of (assign_simplify_geometry false a)))
    with (selected_module (scene_of a)) in Hoff.
  change (selected_module (scene on)) with (selected_module (scene_of a)).
  change (seed_input (scene on)) with (seed_input (scene_of a)).
  change (render_input (scene on)) with (render_input (scene_of a)).
  change (render_output_path_input (scene on))
    with (render_output_path_input (scene_of a)).
  change (generate_leaves_input (scene on))
    with (generate_leaves_input (scene_of a)).
  change (seed_input (scene_of (assign_simplify_geometry false a)))
    with (seed_input (scene_of a)) in Hoff.
  change (render_input (scene_of (assign_simplify_geometry false a)))
    with (render_input (scene_of a)) in Hoff.
  change (render_output_path_input (scene_of (assign_simplify_geometry false a)))
    with (render_output_path_input (scene_of a)) in Hoff.
  change (generate_leaves_input (scene_of (assign_simplify_geometry false a)))
    with (generate_leaves_input (scene_of a)) in Hoff.
  match type of Hoff with bind ?G _ _ = _ => set (gen := G) in * end.
  unfold bind at 1 in Hoff.
  destruct (gen w) as [[[] | e0] w0] eqn:Hgen; [| discriminate Hoff].
  unfold ret in Hoff. injection Hoff as ->.
  unfold bind at 1. rewrite Hgen.
  erewrite bind_Return by (apply foreign_eq; exact Himp).
  rewrite bind_stdout_write, bind_flush.
  unfold bind at 1. unfold try_except. rewrite bind_log.
  unfold foreign at 1. cbn [host]. rewrite Hsim, Hexc.
  unfold bind at 1, module_getattr. rewrite print_exec_is_no_attribute.
  reflexivity.
Qed.

End Simplification.

(** C10: with "Simplify branch geometry" ticked and a simplification that
    raises, [_construct] does not complete: the handler's lookup of
    [traceback.print_exec] raises [AttributeError], which leaves
    [_construct]; the closing message is never written. *)
Theorem failed_simplification_aborts_construct :
  let w := snd (_construct lib_simplify_fails
                  (mkContext (scene_of (assign_simplify_geometry true panel_defaults)))
                  empty_world) in
  fst (_construct lib_simplify_fails
         (mkContext (scene_of (assign_simplify_geometry true panel_defaults)))
         empty_world)
    = Raise (mkExn AttributeError "module 'traceback' has no attribute 'print_exec'")
  /\ stdout w =
       ["Simplifying tree branch geometry. Blender will appear to crash; be patient."
          ++ nl]
  /\ ~ In ("Geometry simplification complete" ++ nl ++ nl) (stdout w)
  /\ host w = ["tree"].
Proof.
  cbv zeta.
  rewrite (failed_simplification_escapes lib_simplify_fails panel_defaults empty_world
             (mkWorld [] []
                [Call_import quaking_aspen; Call_reload quaking_aspen;
                 Call_parametric_construct 7%nat 0 false
                   "/home/user/treegen_render.png" true] [] ["tree"])
             ["tree"] ["tree"] (mkExn RuntimeError "simplification failed")
             eq_refl eq_refl eq_refl eq_refl).
  cbn [fst snd stdout host app].
  repeat split.
  intros [H | []]. vm_compute in H. discriminate H.
Qed.

(** C2 (amended): [execute] starts the thread and hands [{'FINISHED'}] back
    whatever generation does; an exception that leaves [_construct] ends on
    the thread's [sys.stderr] and what had been built until then stays. *)
Theorem execute_finishes_whatever_construct_does {Host Params : Type}
    (lib : Imports Host Params) (context : Context) (w : World Host Params) :
  execute context w =
    (Return [FINISHED],
     mkWorld (stdout w) (stderr w) (calls w)
       (started w ++ [Target_construct context]) (host w))
  /\ fst (request lib context w) = Return [FINISHED]
  /\ (forall e w', _construct lib context (snd (execute context w)) = (Raise e, w') ->
        snd (request lib context w) =
        mkWorld (stdout w') (stderr w' ++ thread_report e)
          (calls w') (started w') (host w'))
  /\ (forall w', _construct lib context (snd (execute context w)) = (Return tt, w') ->
        snd (request lib context w) = w').
Proof.
  repeat split.
  - intros e w' H. unfold request. cbn [execute]. simpl in H |- *.
    unfold run_thread. rewrite H. reflexivity.
  - intros w' H. unfold request. simpl in H |- *.
    unfold run_thread. rewrite H. reflexivity.
Qed.

Lemma execute_finishes_witness :
  snd (request lib_import_fails (mkContext (scene_of missing_preset)) empty_world) =
    mkWorld []
      ["Exception in thread: No module named 'ch_trees.parametric.tree_params.missing'"]
      [Call_import "ch_trees.parametric.tree_params.missing"]
      [Target_construct (mkContext (scene_of missing_preset))] [].
Proof.
  exact (proj1 (proj2 (proj2
           (execute_finishes_whatever_construct_does lib_import_fails
              (mkContext (scene_of missing_preset)) empty_world)))
           (mkExn ImportError "No module named 'ch_trees.parametric.tree_params.missing'")
           (mkWorld [] [] [Call_import "ch_trees.parametric.tree_params.missing"]
              [Target_construct (mkContext (scene_of missing_preset))] [])
           eq_refl).
Defined.

(** C2 (as stated): an error of generation does not reach the caller: with
    a preset module that cannot be imported, [_construct] raises
    [ImportError] and [execute] has handed back [{'FINISHED'}]. *)
Lemma generation_error_is_lost :
  ~ (forall (lib : Imports Host Params) (context : Context)
            (w : World Host Params) (e : Exn),
        fst (_construct lib context (snd (execute context w))) = Raise e ->
        fst (request lib context w) <> Return [FINISHED]).
Proof.
  intros H.
  apply (H lib_import_fails (mkContext (scene_of missing_preset)) empty_world
           (mkExn ImportError "No module named 'ch_trees.parametric.tree_params.missing'"));
    reflexivity.
Qed.

(** C7: the customizer's getter hands no split count to anyone: as the
    module stands the read of [scene] raises [NameError]; with [scene]
    bound it returns [None]; and the local it computes is the configured
    count times the constant 1, with or without the randomize flag. *)
Theorem customizer_getter_returns_no_split_count :
  _get_params_from_customizer gui_globals_scene
    = Raise (mkExn NameError "name 'scene' is not defined")
  /\ (forall scene : Scene, _get_params_from_customizer (Some scene) = Return None_)
  /\ (forall scene : Scene,
        tree_base_splits_local scene = tree_base_splits_limit_input scene)
  /\ tree_base_splits_randomize_input (scene_of randomized_splits) = true
  /\ tree_base_splits_local (scene_of randomized_splits) = 5.
Proof.
  repeat split.
  intros scene. unfold tree_base_splits_local.
  destruct (tree_base_splits_randomize_input scene); [apply Z.mul_1_r | reflexivity].
Qed.

End GuiTheorems.

(* ===================================================================== *)
(** * Facts about the L-system interpreter                                *)
(* ===================================================================== *)

Module LSystemFacts.

Import Core LSystem.
Local Open Scope list_scope.
Local Open Scope nat_scope.

(** ** Depths read off parent links *)







Section Walk.

Variable geo : Geometry.





(** ** One symbol *)



Lemma scan_cons (d : nat) (sym : Symbol) (w : list Symbol) :
  scan d (sym :: w) =
  match scan d [sym] with
  | Some d1 => scan d1 w
  | None => None
  end.
Proof. destruct sym; simpl; try reflexivity. destruct d; reflexivity. Qed.




(** ** The whole string *)




End Walk.

(** ** Stems and brackets *)


(** ** Counting brackets *)

Lemma scan_counts (w : list Symbol) :
  forall d,
    match scan d w with
    | None => exists n, d + pushes (firstn n w) < pops (firstn n w)
    | Some d' =>
        d + pushes w = d' + pops w /\
        forall n, pops (firstn n w) <= d + pushes (firstn n w)
    end.
Proof.
  induction w as [| sym w IH]; intros d.
  - simpl. split; [lia |]. intros [| n]; simpl; lia.
  - destruct sym; simpl;
      try (specialize (IH d); destruct (scan d w) as [d' |];
           [ destruct IH as [Hc Hp]; split; [exact Hc |];
             intros [| n]; simpl; [lia | apply Hp]
           | destruct IH as [n Hn]; exists (S n); exact Hn ]).
    + (* Push *)
      specialize (IH (S d)). destruct (scan (S d) w) as [d' |].
      * destruct IH as [Hc Hp]. split; [lia |].
        intros [| n]; simpl; [lia |]. specialize (Hp n). lia.
      * destruct IH as [n Hn]. exists (S n). simpl. lia.
    + (* Pop *)
      destruct d as [| d0].
      * exists 1. simpl. lia.
      * specialize (IH d0). destruct (scan d0 w) as [d' |].
        -- destruct IH as [Hc Hp]. split; [lia |].
           intros [| n]; simpl; [lia |]. specialize (Hp n). lia.
        -- destruct IH as [n Hn]. exists (S n). simpl. lia.
Qed.

Lemma well_formed_scan (w : list Symbol) : well_formed w -> scan 0 w = Some 0.
Proof.
  intros [Heq Hpre]. pose proof (scan_counts w 0) as H.
  destruct (scan 0 w) as [d' |].
  - destruct H as [Hc _]. f_equal. lia.
  - destruct H as [n Hn]. specialize (Hpre n). lia.
Qed.


Lemma scan_well_formed (w : list Symbol) : scan 0 w = Some 0 -> well_formed w.
Proof.
  intros H. pose proof (scan_counts w 0) as Hc. rewrite H in Hc.
  destruct Hc as [Heq Hpre]. split; [lia | exact Hpre].
Qed.

(** ** Expansion and brackets *)

Lemma scan_shift (w : list Symbol) :
  forall d d' e, scan d w = Some d' -> scan (d + e) w = Some (d' + e).
Proof.
  induction w as [| sym w IH]; intros d d' e H.
  - injection H as <-. reflexivity.
  - destruct sym; simpl in *; try (apply IH; exact H).
    + apply (IH (S d) d' e H).
    + destruct d as [| d0]; [discriminate |]. simpl. apply IH. exact H.
Qed.

Lemma scan_app (w1 w2 : list Symbol) :
  forall d,
    scan d (w1 ++ w2) =
    match scan d w1 with
    | Some d1 => scan d1 w2
    | None => None
    end.
Proof.
  induction w1 as [| sym w1 IH]; intros d; [reflexivity |].
  destruct sym; simpl; try apply IH.
  destruct d; [reflexivity | apply IH].
Qed.

Lemma rotation_eqb_eq (a b : Rotation) : rotation_eqb a b = true -> a = b.
Proof. destruct a, b; simpl; intros H; try discriminate; reflexivity. Qed.

Lemma symbol_eqb_eq (a b : Symbol) : symbol_eqb a b = true -> a = b.
Proof.
  destruct a, b; simpl; intros H; try discriminate; try reflexivity.
  - f_equal. apply rotation_eqb_eq, H.
  - f_equal. apply Ascii.eqb_eq, H.
Qed.

Lemma rewrite_scan (rs : list (Symbol * list Symbol)) :
  (forall r, In r rs -> fst r <> Push /\ fst r <> Pop /\ well_formed (snd r)) ->
  forall s d, scan d (rewrite rs s) = scan d [s].
Proof.
  intros Hrs s d. unfold rewrite.
  destruct (find (fun r => symbol_eqb (fst r) s) rs) as [r |] eqn:Hf;
    [| reflexivity].
  apply find_some in Hf. destruct Hf as [Hin Heq].
  apply symbol_eqb_eq in Heq. destruct (Hrs r Hin) as (Hpush & Hpop & Hwf).
  apply well_formed_scan in Hwf.
  pose proof (scan_shift (snd r) 0 0 d Hwf) as Hd. simpl in Hd.
  rewrite Hd. subst s.
  destruct (fst r); simpl; try reflexivity; contradiction.
Qed.

Lemma expand_once_scan (rs : list (Symbol * list Symbol)) :
  (forall r, In r rs -> fst r <> Push /\ fst r <> Pop /\ well_formed (snd r)) ->
  forall w d, scan d (expand_once rs w) = scan d w.
Proof.
  intros Hrs. induction w as [| s w IH]; intros d; [reflexivity |].
  unfold expand_once in *.
  change (flat_map (rewrite rs) (s :: w))
    with (rewrite rs s ++ flat_map (rewrite rs) w).
  rewrite scan_app, (rewrite_scan rs Hrs), (scan_cons d s w).
  destruct (scan d [s]); [apply IH | reflexivity].
Qed.

(** When no rule rewrites a bracket and every right-hand side is well
    formed, expansion keeps a well-formed axiom well formed. *)
Lemma expansion_keeps_brackets (g : Grammar) (iterations : nat) :
  (forall r, In r (rules g) -> fst r <> Push /\ fst r <> Pop /\ well_formed (snd r)) ->
  well_formed (axiom g) ->
  well_formed (expand (rules g) iterations (axiom g)).
Proof.
  intros Hrs Hax. apply scan_well_formed.
  assert (H : forall n w, scan 0 (expand (rules g) n w) = scan 0 w).
  { induction n as [| n IH]; intros w; simpl; [reflexivity |].
    rewrite IH. apply expand_once_scan, Hrs. }
  rewrite H. apply well_formed_scan, Hax.
Qed.

(** The specification's scenario: one rewrite of F by F[+F]F[-F]F gives 11
    symbols, two well-formed bracket pairs and, without a stem marker, the one
    stem of the root; with a marker after each push the two branches are
    stems of their own. *)
Example bush_once :
  length (expand (rules bush) 1 (axiom bush)) = 11
  /\ scan 0 (expand (rules bush) 1 (axiom bush)) = Some 0
  /\ pushes (expand (rules bush) 1 (axiom bush)) = 2
  /\ match generate compass bush 1 with
     | inr sk => map parent sk = [None]
     | inl _ => False
     end
  /\ match generate compass branching_bush 1 with
     | inr sk => depths sk = [0; 1; 1] /\ map parent sk = [None; Some 0; Some 0]
     | inl _ => False
     end.
Proof. vm_compute. repeat split. Qed.



(** Where each bracketed branch begins with its marker, as in
    F -> F[S+F]F[S-F]F, the stems follow the brackets; so they do in
    F -> F[+F]F[-F]F, which begins no stem; in F S F they do not. *)
Example stems_of_the_bushes :
  stems_follow_brackets (expand (rules branching_bush) 2 (axiom branching_bush)) = true
  /\ stems_follow_brackets (expand (rules bush) 2 (axiom bush)) = true
  /\ stems_follow_brackets (axiom marker_outside) = false
  /\ match generate compass branching_bush 2 with
     | inr sk => depths sk = [0; 1; 1; 1; 2; 2; 1; 1; 1; 2; 2; 1; 1]
     | inl _ => False
     end.
Proof. vm_compute. repeat split. Qed.


End LSystemFacts.

(* ===================================================================== *)
(** * Facts about the mesh builder                                        *)
(* ===================================================================== *)

Module MeshFacts.

Import Core MeshBuilder.
Local Open Scope list_scope.
Local Open Scope nat_scope.

Lemma valid_face_mono (n n' : nat) (f : list nat) :
  n <= n' -> valid_face n f -> valid_face n' f.
Proof.
  intros Hn (Hlen & Hnd & Hin). repeat split; try assumption.
  eapply Forall_impl; [| exact Hin]. simpl. intros i Hi. lia.
Qed.

Lemma valid_faces_mono (n n' : nat) (fs : list (list nat)) :
  n <= n' -> Forall (valid_face n) fs -> Forall (valid_face n') fs.
Proof.
  intros Hn. apply Forall_impl. intros f. apply valid_face_mono. exact Hn.
Qed.

Lemma succ_mod (n i : nat) :
  3 <= n -> i < n -> (S i) mod n < n /\ (S i) mod n <> i.
Proof.
  intros Hn Hi. split; [apply Nat.mod_upper_bound; lia |].
  destruct (Nat.eq_dec (S i) n) as [<- | Hne].
  - rewrite Nat.Div0.mod_same. lia.
  - rewrite Nat.mod_small by lia. lia.
Qed.

Lemma quad_valid (base n k j i : nat) :
  3 <= n -> i < n -> S j < k -> valid_face (base + n * k) (quad base n j i).
Proof.
  intros Hn Hi Hj. destruct (succ_mod n i Hn Hi) as [Hm Hne].
  unfold quad, valid_face. set (m := (S i) mod n) in *.
  assert (Hk : S j * n + n <= n * k) by nia.
  assert (Hs : S j * n = j * n + n) by lia.
  split; [simpl; lia |]. split.
  - repeat constructor; simpl; intros H;
      repeat (destruct H as [H | H]; [lia |]); exact H.
  - repeat constructor; lia.
Qed.

Lemma bands_valid (base n k : nat) :
  3 <= n -> Forall (valid_face (base + n * k)) (bands base n k).
Proof.
  intros Hn. unfold bands, band. apply Forall_forall. intros f Hf.
  apply in_flat_map in Hf. destruct Hf as (j & Hj & Hf).
  apply in_map_iff in Hf. destruct Hf as (i & <- & Hi).
  apply in_seq in Hj. apply in_seq in Hi.
  apply quad_valid; lia.
Qed.

Lemma seam_valid (q base n k : nat) :
  3 <= n -> 1 <= k -> q < base ->
  Forall (valid_face (base + n * k)) (seam q base n).
Proof.
  intros Hn Hk Hq. unfold seam. apply Forall_forall. intros f Hf.
  apply in_map_iff in Hf. destruct Hf as (i & <- & Hi). apply in_seq in Hi.
  destruct (succ_mod n i Hn (proj2 Hi)) as [Hm Hne].
  set (m := (S i) mod n) in *.
  assert (Hnk : n <= n * k) by nia.
  split; [simpl; lia |]. split.
  - repeat constructor; simpl; intros H;
      repeat (destruct H as [H | H]; [lia |]); exact H.
  - repeat constructor; lia.
Qed.

Lemma fan_valid (base k : nat) :
  3 <= k -> Forall (valid_face (base + k)) (fan base k).
Proof.
  intros Hk. unfold fan. apply Forall_forall. intros f Hf.
  apply in_map_iff in Hf. destruct Hf as (i & <- & Hi). apply in_seq in Hi.
  split; [simpl; lia |]. split.
  - repeat constructor; simpl; intros H;
      repeat (destruct H as [H | H]; [lia |]); exact H.
  - repeat constructor; lia.
Qed.

Lemma seq_face_valid (base k : nat) :
  3 <= k -> valid_face (base + k) (seq base k).
Proof.
  intros Hk. split; [rewrite length_seq; exact Hk |]. split.
  - apply seq_NoDup.
  - apply Forall_forall. intros i Hi. apply in_seq in Hi. lia.
Qed.

Lemma nearest_range (vs : list Point) (lo count : nat) (target : Point) :
  lo <= nearest vs lo (S count) target < lo + S count.
Proof.
  unfold nearest.
  assert (H : forall l best,
             lo <= best < lo + S count ->
             Forall (fun i => lo <= i < lo + S count) l ->
             lo <= fold_left
                     (fun best i =>
                        if Qle_bool (dist2 (nth best vs origin) target)
                             (dist2 (nth i vs origin) target)
                        then best else i) l best < lo + S count).
  { induction l as [| i l IH]; intros best Hb Hl; simpl; [exact Hb |].
    inversion Hl; subst. apply IH; [| assumption].
    destruct (Qle_bool _ _); assumption. }
  apply H; [lia |]. apply Forall_forall. intros i Hi. apply in_seq in Hi. lia.
Qed.

Section Build.

Variable shapes : Shapes.

Lemma length_ring (c : Point) (r : Q) (n : nat) : length (ring shapes c r n) = n.
Proof. unfold ring. now rewrite length_map, length_seq. Qed.

Lemma length_rings (n : nat) (samples : list (Point * Q)) :
  length (rings shapes n samples) = n * length samples.
Proof.
  unfold rings. induction samples as [| s samples IH]; simpl; [lia |].
  rewrite length_app, length_ring, IH. lia.
Qed.

Lemma group_of_in_buffer (b : Builder) (p lo count : nat) :
  sound b -> group_of (mesh b) p = Some (lo, count) ->
  lo + count <= length (vertices (mesh b)).
Proof.
  intros [_ Hg] H. unfold group_of in H.
  destruct (find (fun g => fst g =? p) (groups (mesh b))) as [g |] eqn:Hf;
    [| discriminate].
  injection H as H. apply find_some in Hf. destruct Hf as [Hin _].
  rewrite Forall_forall in Hg. specialize (Hg g Hin). rewrite H in Hg. exact Hg.
Qed.

Lemma add_stem_sound (id : nat) (s : Stem) (b : Builder) :
  sound b -> sound (add_stem shapes id s b).
Proof.
  intros Hb. pose proof Hb as [Hv Hg]. unfold add_stem.
  destruct (Nat.ltb_spec (ring_count shapes s) 3) as [Hn | Hn]; [exact Hb |].
  set (n := ring_count shapes s) in *.
  set (base := length (vertices (mesh b))).
  set (k := length (points s)).
  unfold sound, valid. cbn [mesh vertices faces groups].
  rewrite length_app, length_rings. fold base k. split.
  - apply Forall_app. split; [| apply Forall_app; split].
    + eapply valid_faces_mono; [| exact Hv]. fold base. lia.
    + apply bands_valid. exact Hn.
    + destruct (parent s) as [p |]; [| constructor].
      destruct (points s) as [| [c r] pts] eqn:Hpts; [constructor |].
      destruct (group_of (mesh b) p) as [[lo [| count]] |] eqn:Hgrp;
        try constructor.
      pose proof (group_of_in_buffer b p lo (S count) Hb Hgrp) as Hin.
      pose proof (nearest_range (vertices (mesh b)) lo count c) as Hnear.
      apply seam_valid; [exact Hn | | fold base in Hin; lia].
      subst k. simpl. lia.
  - apply Forall_app. split.
    + eapply Forall_impl; [| exact Hg]. simpl. intros g H. fold base in H. lia.
    + constructor; [simpl; lia | constructor].
Qed.

Lemma add_instance_sound (inst : Instance) (b : Builder) :
  sound b -> sound (add_instance shapes inst b).
Proof.
  intros Hb. pose proof Hb as [Hv Hg]. unfold add_instance.
  destruct (Nat.ltb_spec (length (silhouette shapes inst)) 3) as [Hk | Hk];
    [exact Hb |].
  set (k := length (silhouette shapes inst)) in *.
  set (base := length (vertices (mesh b))).
  unfold sound, valid. cbn [mesh vertices faces groups].
  rewrite length_app. fold base k. split.
  - apply Forall_app. split.
    + eapply valid_faces_mono; [| exact Hv]. fold base. lia.
    + destruct (Nat.eqb_spec k 4) as [Hk4 | Hk4].
      * constructor; [| constructor]. rewrite Hk4. apply seq_face_valid. lia.
      * apply fan_valid. exact Hk.
  - eapply Forall_impl; [| exact Hg]. simpl. intros g H. fold base in H. lia.
Qed.

Lemma add_stems_sound (sk : Skeleton) (b : Builder) :
  sound b -> sound (add_stems shapes sk b).
Proof.
  unfold add_stems. generalize (combine (seq 0 (length sk)) sk).
  intros l. revert b. induction l as [| [id s] l IH]; intros b Hb; simpl;
    [exact Hb |].
  apply IH, add_stem_sound, Hb.
Qed.

Lemma add_instances_sound (instances : list Instance) (b : Builder) :
  sound b -> sound (add_instances shapes instances b).
Proof.
  unfold add_instances. revert b.
  induction instances as [| inst l IH]; intros b Hb; simpl; [exact Hb |].
  apply IH, add_instance_sound, Hb.
Qed.

Lemma empty_sound : sound empty.
Proof. split; constructor. Qed.

(** C5: every mesh the builder returns is structurally valid: each face has
    at least three indices, no index twice, and every index below the
    length of the vertex buffer. *)
Theorem built_mesh_is_valid (sk : Skeleton) (instances : list Instance) :
  Forall
    (fun f =>
       3 <= length f /\ NoDup f /\
       Forall (fun i => i < length (vertices (mesh (build shapes sk instances)))) f)
    (faces (mesh (build shapes sk instances))).
Proof.
  unfold build.
  exact (proj1 (add_instances_sound instances _ (add_stems_sound sk _ empty_sound))).
Qed.

End Build.

Example twig_mesh :
  let m := mesh (build hexagons twig [mkInstance (0, 0, 2)%Q (0, 0, 1)%Q false 1 1%Q 1%Q]) in
  length (vertices m) = 34 /\ length (faces m) = 25 /\
  nth 18 (faces m) [] = [6; 18; 19] /\ nth 24 (faces m) [] = [30; 31; 32; 33].
Proof. vm_compute. repeat split. Qed.

End MeshFacts.

(* ===================================================================== *)
(** * Facts about the parametric generator                                *)
(* ===================================================================== *)

Module ParametricFacts.

Import Core Parametric.
Local Open Scope list_scope.
Local Open Scope nat_scope.

Example sapling_is_valid : validate straight sapling = None.
Proof. reflexivity. Qed.

Example sapling_skeleton :
  match generate lcg straight sapling 7 used with
  | (inr sk, w) =>
      map level sk = [0; 1; 1] /\ map parent sk = [None; Some 0; Some 0] /\
      discarded lcg w = 0 /\ warnings lcg w = []
  | _ => False
  end.
Proof. vm_compute. repeat split. Qed.

Example cramped_trunk :
  match generate lcg straight cramped 7 used with
  | (inr sk, w) =>
      length sk = 1 /\ discarded lcg w = 3 /\ warnings lcg w = [PruningExhausted]
  | _ => False
  end.
Proof. vm_compute. repeat split. Qed.


(** ** Relations kept by the generator's steps *)

Section Relations.

Variable rng : Rng.
Variable K : Kernels.
Variable R : World rng -> World rng -> Prop.
Hypothesis R_refl : forall w, R w w.
Hypothesis R_trans : forall a b c, R a b -> R b c -> R a c.
Hypothesis R_draw : keeps R (draw rng).

Lemma keeps_ret {A} (a : A) : keeps R (ret a).
Proof. intros w. apply R_refl. Qed.

Lemma keeps_bind {A B} (c : Gen rng A) (k : A -> Gen rng B) :
  keeps R c -> (forall a, keeps R (k a)) -> keeps R (bind c k).
Proof.
  intros Hc Hk w. unfold bind. specialize (Hc w).
  destruct (c w) as [a w1]. simpl in Hc.
  eapply R_trans; [exact Hc | apply Hk].
Qed.

Lemma keeps_for_each {A} (l : list A) (body : A -> Gen rng unit) :
  (forall x, keeps R (body x)) -> keeps R (for_each l body).
Proof.
  intros Hb. induction l as [| x l IH]; simpl.
  - apply keeps_ret.
  - apply keeps_bind; [apply Hb | intros _; exact IH].
Qed.



Lemma keeps_split_count P lvl : keeps R (split_count rng K P lvl).
Proof.
  unfold split_count. destruct lvl as [| lvl].
  - apply keeps_bind; [| intros base; apply keeps_ret].
    destruct (base_splits_randomize P); [| apply keeps_ret].
    apply keeps_bind; [exact R_draw | intros x; apply keeps_ret].
  - apply keeps_bind; [exact R_draw | intros x; apply keeps_ret].
Qed.

End Relations.

Section Generator.

Variable rng : Rng.
Variable K : Kernels.

Lemma exhausted_app (ws ws' : list Warning) :
  exhausted (ws ++ ws') = exhausted ws + exhausted ws'.
Proof. unfold exhausted. now rewrite filter_app, length_app. Qed.

(** *** Reduced lengths *)


(** *** Without pruning nothing is thrown away *)







(** *** With pruning, the retries end *)

Lemma candidate_only_draws (P : ParameterSet) (lvl : nat) (par : option nat)
    (start : Point) (len : Q) (w : World rng) :
  exists ds,
    fst (candidate rng K P lvl par start len w)
      = mkStem lvl par (centerline K P lvl start len ds) /\
    arena rng (snd (candidate rng K P lvl par start len w)) = arena rng w /\
    discarded rng (snd (candidate rng K P lvl par start len w)) = discarded rng w /\
    warnings rng (snd (candidate rng K P lvl par start len w)) = warnings rng w.
Proof.
  unfold candidate, bind.
  assert (Hd : forall n w0,
             arena rng (snd (draws rng n w0)) = arena rng w0 /\
             discarded rng (snd (draws rng n w0)) = discarded rng w0 /\
             warnings rng (snd (draws rng n w0)) = warnings rng w0).
  { induction n as [| n IHn]; intros w0; simpl; [auto |].
    unfold bind, draw. destruct (next rng (source rng w0)) as [x r].
    specialize (IHn (mkWorld rng r (arena rng w0) (warnings rng w0) (discarded rng w0))).
    destruct (draws rng n _) as [xs w1]. simpl in *. exact IHn. }
  specialize (Hd (samples K P lvl) w).
  destruct (draws rng (samples K P lvl) w) as [ds w1]. simpl in *.
  exists ds. split; [reflexivity | exact Hd].
Qed.

Lemma retry_turn (fuel attempt : nat) (P : ParameterSet) (lvl : nat)
    (par : option nat) (start : Point) (len : Q) (w : World rng) :
  retry rng K (S fuel) attempt P lvl par start len w =
    let (s, w1) := candidate rng K P lvl par start len w in
    if acceptable K P s then (Some s, w1)
    else if retry_limit K <=? attempt then
      (Some s,
       mkWorld rng (source rng w1) (arena rng w1)
         (warnings rng w1 ++ [PruningExhausted]) (discarded rng w1))
    else
      retry rng K fuel (S attempt) P lvl par start (shorten K len)
        (mkWorld rng (source rng w1) (arena rng w1) (warnings rng w1)
           (S (discarded rng w1))).
Proof.
  cbn [retry]. unfold bind at 1.
  destruct (candidate rng K P lvl par start len w) as [s w1].
  destruct (acceptable K P s); [reflexivity |].
  destruct (retry_limit K <=? attempt); reflexivity.
Qed.

(** The loop ends with a stem whenever its turns outnumber the retries that
    are left, after at most that many discards, each of a candidate found
    outside. *)
Lemma retry_bounded (P : ParameterSet) (lvl : nat) (par : option nat) (start : Point) :
  forall fuel attempt len (w : World rng),
    retry_limit K < attempt + fuel -> attempt <= retry_limit K ->
    exists (k : nat) (dss : list (list Q)) (ds : list Q),
      attempt + k <= retry_limit K /\
      length dss = k /\
      fst (retry rng K fuel attempt P lvl par start len w)
        = Some (attempted K P lvl par start len k ds) /\
      arena rng (snd (retry rng K fuel attempt P lvl par start len w)) = arena rng w /\
      discarded rng (snd (retry rng K fuel attempt P lvl par start len w))
        = discarded rng w + k /\
      (forall j, j < k ->
         acceptable K P (attempted K P lvl par start len j (nth j dss [])) = false) /\
      ((acceptable K P (attempted K P lvl par start len k ds) = true /\
        warnings rng (snd (retry rng K fuel attempt P lvl par start len w))
          = warnings rng w)
       \/
       (acceptable K P (attempted K P lvl par start len k ds) = false /\
        attempt + k = retry_limit K /\
        warnings rng (snd (retry rng K fuel attempt P lvl par start len w))
          = warnings rng w ++ [PruningExhausted])).
Proof.
  induction fuel as [| fuel IH]; intros attempt len w Hfuel Hatt; [lia |].
  rewrite retry_turn.
  destruct (candidate_only_draws P lvl par start len w) as (ds & Hs & Ha & Hdi & Hw).
  destruct (candidate rng K P lvl par start len w) as [s w1].
  cbn [fst snd] in Hs, Ha, Hdi, Hw.
  change (mkStem lvl par (centerline K P lvl start len ds))
    with (attempted K P lvl par start len 0 ds) in Hs.
  subst s.
  destruct (acceptable K P (attempted K P lvl par start len 0 ds)) eqn:Hacc.
  - exists 0, [], ds. cbn [fst snd length].
    repeat split; try assumption; try lia.
    left. split; assumption.
  - destruct (Nat.leb_spec (retry_limit K) attempt) as [Hle | Hlt].
    + exists 0, [], ds. cbn [fst snd length arena discarded warnings].
      repeat split; try assumption; try lia.
      right. split; [exact Hacc |]. split; [lia | now rewrite Hw].
    + destruct (IH (S attempt) (shorten K len)
                  (mkWorld rng (source rng w1) (arena rng w1) (warnings rng w1)
                     (S (discarded rng w1))))
        as (k & dss & ds' & Hk & Hlen & Hs' & Ha' & Hd' & Hout & Hw'); [lia | lia |].
      cbn [arena discarded warnings] in Ha', Hd', Hw'.
      assert (Hshift : forall j ds0,
                 attempted K P lvl par start (shorten K len) j ds0
                 = attempted K P lvl par start len (S j) ds0).
      { intros j ds0. unfold attempted. now rewrite Nat.iter_succ_r. }
      exists (S k), (ds :: dss), ds'. rewrite <- Hshift.
      split; [lia |]. split; [cbn [length]; lia |]. split; [exact Hs' |].
      split; [congruence |]. split; [lia |]. split.
      * intros [| j] Hj; cbn [nth]; [exact Hacc |].
        rewrite <- Hshift. apply Hout. lia.
      * destruct Hw' as [[H1 H2] | (H1 & H2 & H3)].
        -- left. split; [exact H1 | congruence].
        -- right. split; [exact H1 |]. split; [lia | congruence].
Qed.

Lemma pruned_bounded (P : ParameterSet) (lvl : nat) (par : option nat) (start : Point)
    (len : Q) (w : World rng) :
  exists (k : nat) (ds : list Q),
    k <= retry_limit K /\
    fst (pruned rng K P lvl par start len w)
      = Some (attempted K P lvl par start len k ds) /\
    arena rng (snd (pruned rng K P lvl par start len w)) = arena rng w /\
    discarded rng (snd (pruned rng K P lvl par start len w)) = discarded rng w + k /\
    exhausted (warnings rng (snd (pruned rng K P lvl par start len w)))
      <= exhausted (warnings rng w) + 1.
Proof.
  unfold pruned.
  destruct (retry_bounded P lvl par start (S (retry_limit K)) 0 len w)
    as (k & dss & ds & Hk & _ & Hs & Ha & Hd & _ & Hw); [lia | lia |].
  exists k, ds. repeat split; try assumption; try lia.
  destruct Hw as [[_ ->] | (_ & _ & ->)]; [lia |].
  rewrite exhausted_app. change (exhausted [PruningExhausted]) with 1. lia.
Qed.





(** *** Levels *)

Lemma below_refl (n : nat) (w : World rng) : below rng n w w.
Proof. exists []. split; [now rewrite app_nil_r | constructor]. Qed.

Lemma below_trans (n : nat) (a b c : World rng) :
  below rng n a b -> below rng n b c -> below rng n a c.
Proof.
  intros (n1 & H1 & F1) (n2 & H2 & F2). exists (n1 ++ n2). split.
  - rewrite H2, H1. now rewrite app_assoc.
  - apply Forall_app. split; assumption.
Qed.

Lemma below_draw (n : nat) : keeps (below rng n) (draw rng).
Proof.
  intros w. unfold draw. destruct (next rng (source rng w)).
  exists []. split; [simpl; now rewrite app_nil_r | constructor].
Qed.

Lemma below_grow (P : ParameterSet) (n : nat) :
  forall fuel lvl par start len,
    lvl + fuel <= n ->
    keeps (below rng n) (grow rng K fuel P lvl par start len).
Proof.
  intros fuel. induction fuel as [| fuel IH]; intros lvl par start len Hn.
  - apply keeps_ret. exact (below_refl n).
  - intros w. cbn [grow]. unfold bind at 1.
    destruct (pruned_bounded P lvl par start len w) as (k & ds & _ & Hs & Ha & _ & _).
    destruct (pruned rng K P lvl par start len w) as [r w1].
    cbn [fst snd] in Hs, Ha. subst r.
    set (s := attempted K P lvl par start len k ds).
    unfold bind at 1. unfold append at 1.
    set (w2 := mkWorld rng (source rng w1) (arena rng w1 ++ [s]) (warnings rng w1)
                 (discarded rng w1)).
    assert (H12 : below rng n w w2).
    { exists [s]. split; [unfold w2; cbn [arena]; now rewrite Ha |].
      constructor; [| constructor]. unfold s, attempted. cbn [level]. lia. }
    eapply below_trans; [exact H12 |].
    destruct fuel as [| fuel']; [apply below_refl |].
    apply (keeps_bind rng (below rng n) (below_trans n)).
    + apply keeps_split_count;
        [exact (below_refl n) | exact (below_trans n) | exact (below_draw n)].
    + intros m. apply keeps_for_each;
        [exact (below_refl n) | exact (below_trans n) | intros i].
      apply keeps_bind; [exact (below_trans n) | exact (below_draw n) | intros x].
      apply IH. lia.
Qed.

(** *** Whole requests *)



(** The level count bounds the recursion: every stem of a generated skeleton
    lies at a level below it. *)
Lemma levels_below_level_count (P : ParameterSet) (seed : Z) (w : World rng) :
  validate K P = None ->
  Forall (fun s => level s < Z.to_nat (level_count P))
    (arena rng (snd (generate rng K P seed w))).
Proof.
  intros Hv. unfold generate. rewrite Hv.
  pose proof (keeps_bind rng (below rng (Z.to_nat (level_count P))) (below_trans _)
                (draw rng)
                (fun x => grow rng K (Z.to_nat (level_count P)) P 0 None origin
                            (trunk_length K P x))
                (below_draw _)
                (fun x => below_grow P _ _ 0 None origin _ (Nat.le_refl _))
                (fresh rng seed)) as (new & Hnew & Hall).
  destruct (bind (draw rng) _ (fresh rng seed)) as [u w1].
  cbn [snd arena fresh] in *. rewrite Hnew. exact Hall.
Qed.


End Generator.


(** A kernel that lengthens a retried stem is no instance of [shortens]. *)
Example lengthening_does_not_shorten :
  ~ shortens
      (mkKernels (validate straight) 3 (fun len => (len * 2)%Q) (samples straight)
         (centerline straight) (inside_envelope straight) (trunk_length straight)
         (child_length straight) (split_point straight) (level_splits straight)
         (randomize_factor straight)).
Proof.
  intros H. destruct (H 1%Q eq_refl) as [_ H2]. cbn [shorten] in H2.
  vm_compute in H2. discriminate H2.
Qed.

End ParametricFacts.

(* ===================================================================== *)
(** * More facts about [_construct] and [execute]                         *)
(* ===================================================================== *)

Module GuiStepsFacts.

Import Py Bpy Gui GuiInstances GuiFacts GuiSteps.

Section Steps.

Context {Host Params : Type}.
Variable lib : Imports Host Params.
Implicit Types w : World Host Params.

Lemma construct_steps (ctx : Context) :
  _construct lib ctx =
  bind (generation_step lib (scene ctx))
    (fun _ =>
       if simplify_geometry_input (scene ctx)
       then simplification_step lib ctx
       else ret tt).
Proof. reflexivity. Qed.

(** What the simplification block does, by what the imported functions do. *)
Lemma simplification_import_fails (ctx : Context) w e h :
  import_utilities lib (host w) = (Raise e, h) ->
  simplification_step lib ctx w =
    (Raise e, mkWorld (stdout w) (stderr w) (calls w) (started w) h).
Proof.
  intros H. unfold simplification_step.
  erewrite bind_Raise by (apply foreign_eq; exact H). reflexivity.
Qed.

Lemma simplification_returns (ctx : Context) w h1 h2 :
  import_utilities lib (host w) = (Return tt, h1) ->
  simplify_branch_geometry lib ctx h1 = (Return tt, h2) ->
  simplification_step lib ctx w =
    (Return tt,
     mkWorld ((stdout w ++ [simplifying_message]) ++ [complete_message])%list
       (stderr w) (calls w ++ [Call_simplify_branch_geometry])%list (started w) h2).
Proof.
  intros H1 H2. unfold simplification_step.
  erewrite bind_Return by (apply foreign_eq; exact H1).
  rewrite bind_stdout_write, bind_flush.
  unfold bind at 1. unfold try_except. rewrite bind_log.
  unfold foreign at 1. cbn [host]. rewrite H2. reflexivity.
Qed.

Lemma simplification_passes_on (ctx : Context) w h1 h2 e :
  import_utilities lib (host w) = (Return tt, h1) ->
  simplify_branch_geometry lib ctx h1 = (Raise e, h2) ->
  is_Exception (exn_class e) = false ->
  simplification_step lib ctx w =
    (Raise e,
     mkWorld (stdout w ++ [simplifying_message])%list (stderr w)
       (calls w ++ [Call_simplify_branch_geometry])%list (started w) h2).
Proof.
  intros H1 H2 He. unfold simplification_step.
  erewrite bind_Return by (apply foreign_eq; exact H1).
  rewrite bind_stdout_write, bind_flush.
  unfold bind at 1. unfold try_except. rewrite bind_log.
  unfold foreign at 1. cbn [host]. rewrite H2, He. reflexivity.
Qed.

Lemma simplification_handler_fails (ctx : Context) w h1 h2 e :
  import_utilities lib (host w) = (Return tt, h1) ->
  simplify_branch_geometry lib ctx h1 = (Raise e, h2) ->
  is_Exception (exn_class e) = true ->
  simplification_step lib ctx w =
    (Raise (mkExn AttributeError "module 'traceback' has no attribute 'print_exec'"),
     mkWorld (stdout w ++ [simplifying_message])%list (stderr w)
       (calls w ++ [Call_simplify_branch_geometry])%list (started w) h2).
Proof.
  intros H1 H2 He. unfold simplification_step.
  erewrite bind_Return by (apply foreign_eq; exact H1).
  rewrite bind_stdout_write, bind_flush.
  unfold bind at 1. unfold try_except. rewrite bind_log.
  unfold foreign at 1. cbn [host]. rewrite H2, He. reflexivity.
Qed.

(** Every run of the simplification block, by cases. *)
Lemma simplification_cases (ctx : Context) w :
  stderr (snd (simplification_step lib ctx w)) = stderr w /\
  started (snd (simplification_step lib ctx w)) = started w /\
  ((calls (snd (simplification_step lib ctx w)) = calls w /\
    stdout (snd (simplification_step lib ctx w)) = stdout w /\
    exists e, fst (simplification_step lib ctx w) = Raise e)
   \/
   (calls (snd (simplification_step lib ctx w))
      = (calls w ++ [Call_simplify_branch_geometry])%list /\
    ((fst (simplification_step lib ctx w) = Return tt /\
      stdout (snd (simplification_step lib ctx w))
        = ((stdout w ++ [simplifying_message]) ++ [complete_message])%list)
     \/
     (stdout (snd (simplification_step lib ctx w))
        = (stdout w ++ [simplifying_message])%list /\
      exists e, fst (simplification_step lib ctx w) = Raise e)))).
Proof.
  destruct (import_utilities lib (host w)) as [[[] | e] h1] eqn:H1.
  - destruct (simplify_branch_geometry lib ctx h1) as [[[] | e] h2] eqn:H2.
    + rewrite (simplification_returns ctx w h1 h2 H1 H2). cbn [fst snd stdout stderr calls started].
      split; [reflexivity |]. split; [reflexivity |]. right. split; [reflexivity |].
      left. split; reflexivity.
    + destruct (is_Exception (exn_class e)) eqn:He.
      * rewrite (simplification_handler_fails ctx w h1 h2 e H1 H2 He).
        cbn [fst snd stdout stderr calls started].
        split; [reflexivity |]. split; [reflexivity |]. right. split; [reflexivity |].
        right. split; [reflexivity | eexists; reflexivity].
      * rewrite (simplification_passes_on ctx w h1 h2 e H1 H2 He).
        cbn [fst snd stdout stderr calls started].
        split; [reflexivity |]. split; [reflexivity |]. right. split; [reflexivity |].
        right. split; [reflexivity | eexists; reflexivity].
  - rewrite (simplification_import_fails ctx w e h1 H1).
    cbn [fst snd stdout stderr calls started].
    split; [reflexivity |]. split; [reflexivity |]. left.
    split; [reflexivity |]. split; [reflexivity | eexists; reflexivity].
Qed.

(** Every run of the generation block, by cases. *)
Lemma generation_cases (s : Scene) w :
  stdout (snd (generation_step lib s w)) = stdout w /\
  stderr (snd (generation_step lib s w)) = stderr w /\
  started (snd (generation_step lib s w)) = started w /\
  ((String.prefix "ch_trees.parametric" (selected_module s) = false /\
    calls (snd (generation_step lib s w))
      = (calls w ++
         [Call_lsystems_construct (selected_module s) (generate_leaves_input s)])%list)
   \/
   (String.prefix "ch_trees.parametric" (selected_module s) = true /\
    ((calls (snd (generation_step lib s w))
        = (calls w ++ [Call_import (selected_module s)])%list /\
      exists e, fst (generation_step lib s w) = Raise e)
     \/
     (calls (snd (generation_step lib s w))
        = (calls w ++ [Call_import (selected_module s);
                       Call_reload (selected_module s)])%list /\
      exists e, fst (generation_step lib s w) = Raise e)
     \/
     (exists params,
        calls (snd (generation_step lib s w))
          = (calls w ++
             [Call_import (selected_module s); Call_reload (selected_module s);
              Call_parametric_construct params (seed_input s) (render_input s)
                (render_output_path_input s) (generate_leaves_input s)])%list)))).
Proof.
  unfold generation_step. cbv zeta.
  destruct (String.prefix "ch_trees.parametric" (selected_module s)) eqn:Hp.
  - rewrite bind_log.
    destruct (import_ lib (selected_module s) (host w)) as [[[] | e] h1] eqn:H1.
    + erewrite bind_Return by (apply foreign_eq; exact H1).
      rewrite bind_log. cbn [host].
      destruct (imp_reload lib (selected_module s) h1) as [[[] | e] h2] eqn:H2.
      * erewrite bind_Return by (apply foreign_eq; cbn [host]; exact H2).
        cbn [host stdout stderr calls started].
        destruct (mod_params lib (selected_module s) h2) as [[params | e] h3] eqn:H3.
        -- erewrite bind_Return by (apply foreign_eq; cbn [host]; exact H3).
           rewrite bind_log. unfold foreign. cbn [host stdout stderr calls started].
           destruct (parametric_gen_construct lib params _ _ _ _ h3) as [r h4].
           cbn [fst snd stdout stderr calls started].
           repeat (split; [reflexivity |]). right. split; [reflexivity |].
           right. right. exists params. now rewrite <- !app_assoc.
        -- erewrite bind_Raise by (apply foreign_eq; cbn [host]; exact H3).
           cbn [fst snd stdout stderr calls started].
           repeat (split; [reflexivity |]). right. split; [reflexivity |].
           right. left. split; [now rewrite <- !app_assoc | eexists; reflexivity].
      * erewrite bind_Raise by (apply foreign_eq; cbn [host]; exact H2).
        cbn [fst snd stdout stderr calls started].
        repeat (split; [reflexivity |]). right. split; [reflexivity |].
        right. left. split; [now rewrite <- !app_assoc | eexists; reflexivity].
    + erewrite bind_Raise by (apply foreign_eq; exact H1).
      cbn [fst snd stdout stderr calls started].
      repeat (split; [reflexivity |]). right. split; [reflexivity |].
      left. split; [reflexivity | eexists; reflexivity].
  - rewrite bind_log. unfold foreign. cbn [host stdout stderr calls started].
    destruct (lsystems_gen_construct lib _ _ (host w)) as [r h1].
    cbn [fst snd stdout stderr calls started].
    repeat (split; [reflexivity |]). left. split; reflexivity.
Qed.

Ltac by_blocks ctx w e1 w0 :=
  change (_construct lib ctx w) with
    (match generation_step lib (scene ctx) w with
     | (Return _, w') =>
         (if simplify_geometry_input (scene ctx)
          then simplification_step lib ctx else ret tt) w'
     | (Raise e, w') => (Raise e, w')
     end);
  let Hgen := fresh "Hgen" in
  pose proof (generation_cases (scene ctx) w) as Hgen;
  destruct Hgen as (Hout & Herr & Hthr & Hgen);
  let HG := fresh "HG" in
  destruct (generation_step lib (scene ctx) w) as [[[] | e1] w0] eqn:HG;
  cbn [fst snd] in Hout, Herr, Hthr, Hgen |- *.

(** X1: [_construct] chooses the generator by the name of the selected
    module alone: whenever that name does not start with
    ['ch_trees.parametric'], whatever the method drop-down says, the first
    call is [lsystems.gen.construct] with that name and the leaves flag, and
    nothing else is called but, at most, the simplification. *)
Theorem construct_routes_by_module_name (ctx : Context) w :
  String.prefix "ch_trees.parametric" (selected_module (scene ctx)) = false ->
  exists rest,
    calls (snd (_construct lib ctx w)) =
      (calls w ++
       Call_lsystems_construct (selected_module (scene ctx))
         (generate_leaves_input (scene ctx)) :: rest)%list
    /\ (rest = [] \/ rest = [Call_simplify_branch_geometry]).
Proof.
  intros Hp. by_blocks ctx w e1 w0.
  - destruct Hgen as [[_ Hc] | [Hp' _]]; [| congruence].
    destruct (simplify_geometry_input (scene ctx)).
    + destruct (simplification_cases ctx w0) as (_ & _ & [(Hs & _) | (Hs & _)]).
      * exists []. rewrite Hs, Hc. auto.
      * exists [Call_simplify_branch_geometry]. rewrite Hs, Hc.
        rewrite <- app_assoc. auto.
    + exists []. cbn [snd ret]. rewrite Hc. auto.
  - destruct Hgen as [[_ Hc] | [Hp' _]]; [| congruence].
    exists []. rewrite Hc. auto.
Qed.

(** X2: an exception of a generator leaves [_construct] as it is: nothing
    catches it, nothing is written, and the simplification is not attempted,
    ticked or not; what the generator had built stays. *)
Theorem generator_failure_leaves_construct (ctx : Context) w e h :
  (String.prefix "ch_trees.parametric" (selected_module (scene ctx)) = false ->
   lsystems_gen_construct lib (selected_module (scene ctx))
     (generate_leaves_input (scene ctx)) (host w) = (Raise e, h) ->
   _construct lib ctx w =
     (Raise e,
      mkWorld (stdout w) (stderr w)
        (calls w ++
         [Call_lsystems_construct (selected_module (scene ctx))
            (generate_leaves_input (scene ctx))])%list
        (started w) h))
  /\
  (forall params h1 h2 h3,
     String.prefix "ch_trees.parametric" (selected_module (scene ctx)) = true ->
     import_ lib (selected_module (scene ctx)) (host w) = (Return tt, h1) ->
     imp_reload lib (selected_module (scene ctx)) h1 = (Return tt, h2) ->
     mod_params lib (selected_module (scene ctx)) h2 = (Return params, h3) ->
     parametric_gen_construct lib params (seed_input (scene ctx))
       (render_input (scene ctx)) (render_output_path_input (scene ctx))
       (generate_leaves_input (scene ctx)) h3 = (Raise e, h) ->
     _construct lib ctx w =
       (Raise e,
        mkWorld (stdout w) (stderr w)
          (calls w ++
           [Call_import (selected_module (scene ctx));
            Call_reload (selected_module (scene ctx));
            Call_parametric_construct params (seed_input (scene ctx))
              (render_input (scene ctx)) (render_output_path_input (scene ctx))
              (generate_leaves_input (scene ctx))])%list
          (started w) h)).
Proof.
  split.
  - intros Hp H. rewrite (construct_steps ctx).
    apply bind_Raise. unfold generation_step. cbv zeta. rewrite Hp, bind_log.
    unfold foreign. cbn [host stdout stderr calls started]. rewrite H. reflexivity.
  - intros params h1 h2 h3 Hp H1 H2 H3 H4. rewrite (construct_steps ctx).
    apply bind_Raise. unfold generation_step. cbv zeta. rewrite Hp, bind_log.
    erewrite bind_Return by (apply foreign_eq; exact H1).
    rewrite bind_log.
    erewrite bind_Return by (apply foreign_eq; cbn [host]; exact H2).
    erewrite bind_Return by (apply foreign_eq; cbn [host]; exact H3).
    rewrite bind_log. unfold foreign. cbn [host stdout stderr calls started].
    rewrite H4. now rewrite <- !app_assoc.
Qed.

(** X3: when the generation block has returned and the simplification
    returns, [_construct] returns: its own statements have written the
    announcement and then the completion message to [sys.stdout], nothing
    else, and have called the simplification once. *)
Theorem simplification_is_announced_and_completed (ctx : Context) w w1 h2 h3 :
  simplify_geometry_input (scene ctx) = true ->
  generation_step lib (scene ctx) w = (Return tt, w1) ->
  import_utilities lib (host w1) = (Return tt, h2) ->
  simplify_branch_geometry lib ctx h2 = (Return tt, h3) ->
  _construct lib ctx w =
    (Return tt,
     mkWorld ((stdout w1 ++ [simplifying_message]) ++ [complete_message])%list
       (stderr w1) (calls w1 ++ [Call_simplify_branch_geometry])%list (started w1) h3).
Proof.
  intros Hf HG H1 H2. rewrite (construct_steps ctx).
  erewrite bind_Return by exact HG. rewrite Hf.
  eapply simplification_returns; eassumption.
Qed.

(** X4: an exception of the simplification that is no [Exception]
    ([KeyboardInterrupt], [SystemExit]) is not caught: it leaves [_construct]
    itself, after the announcement and without the completion message. *)
Theorem interrupt_passes_through_handler (ctx : Context) w w1 h2 h3 e :
  simplify_geometry_input (scene ctx) = true ->
  generation_step lib (scene ctx) w = (Return tt, w1) ->
  import_utilities lib (host w1) = (Return tt, h2) ->
  simplify_branch_geometry lib ctx h2 = (Raise e, h3) ->
  is_Exception (exn_class e) = false ->
  _construct lib ctx w =
    (Raise e,
     mkWorld (stdout w1 ++ [simplifying_message])%list (stderr w1)
       (calls w1 ++ [Call_simplify_branch_geometry])%list (started w1) h3).
Proof.
  intros Hf HG H1 H2 He. rewrite (construct_steps ctx).
  erewrite bind_Return by exact HG. rewrite Hf.
  eapply simplification_passes_on; eassumption.
Qed.

(** X5: with "Simplify branch geometry" unticked, [_construct] writes
    nothing to the console and never calls the simplification. *)
Theorem unticked_simplification_is_not_run (ctx : Context) w :
  simplify_geometry_input (scene ctx) = false ->
  stdout (snd (_construct lib ctx w)) = stdout w /\
  exists new,
    calls (snd (_construct lib ctx w)) = (calls w ++ new)%list /\
    filter is_simplify_call new = [].
Proof.
  intros Hf. by_blocks ctx w e1 w0; rewrite ?Hf; cbn [snd ret].
  - split; [exact Hout |].
    destruct Hgen as [[_ Hc] | [_ [[Hc _] | [[Hc _] | [params Hc]]]]];
      eexists; (split; [exact Hc | reflexivity]).
  - split; [exact Hout |].
    destruct Hgen as [[_ Hc] | [_ [[Hc _] | [[Hc _] | [params Hc]]]]];
      eexists; (split; [exact Hc | reflexivity]).
Qed.

(** [_construct] writes nothing to [sys.stderr] and starts no thread. *)
Lemma construct_keeps_threads (ctx : Context) w :
  stderr (snd (_construct lib ctx w)) = stderr w /\
  started (snd (_construct lib ctx w)) = started w.
Proof.
  by_blocks ctx w e1 w0.
  - destruct (simplify_geometry_input (scene ctx)).
    + destruct (simplification_cases ctx w0) as (Herr' & Hthr' & _).
      split; congruence.
    + cbn [snd ret]. split; assumption.
  - split; assumption.
Qed.

(** X6: whatever the imported modules do, the calls of one run of
    [_construct] are those of the generation block, with at most one call of
    a generator among them and none of the simplification, followed by at
    most one call of the simplification, which is made only when a generator
    was called before; the run writes nothing to [sys.stderr] and starts no
    thread. *)
Theorem construct_calls_one_generator (ctx : Context) w :
  stderr (snd (_construct lib ctx w)) = stderr w /\
  started (snd (_construct lib ctx w)) = started w /\
  exists generation simplification,
    calls (snd (_construct lib ctx w)) = (calls w ++ generation ++ simplification)%list /\
    filter is_simplify_call generation = [] /\
    (length (filter is_generator_call generation) <= 1)%nat /\
    (simplification = [] \/
     (simplification = [Call_simplify_branch_geometry] /\
      length (filter is_generator_call generation) = 1%nat)).
Proof.
  destruct (construct_keeps_threads ctx w) as [Hse Hst].
  split; [exact Hse |]. split; [exact Hst |]. clear Hse Hst.
  by_blocks ctx w e1 w0.
  - assert (Hg : exists generation,
               calls w0 = (calls w ++ generation)%list /\
               filter is_simplify_call generation = [] /\
               length (filter is_generator_call generation) = 1%nat).
    { destruct Hgen as [[_ Hc] | [_ [[Hc [e He]] | [[Hc [e He]] | [params Hc]]]]];
        try discriminate He; eexists; (split; [exact Hc | split; reflexivity]). }
    destruct Hg as (generation & Hc & Hns & Hone).
    exists generation.
    destruct (simplify_geometry_input (scene ctx)).
    + destruct (simplification_cases ctx w0) as (_ & _ & [(Hs & _) | (Hs & _)]).
      * exists []. rewrite Hs, Hc, app_nil_r.
        split; [reflexivity |]. split; [exact Hns |]. split; [lia | now left].
      * exists [Call_simplify_branch_geometry]. rewrite Hs, Hc, <- app_assoc.
        split; [reflexivity |]. split; [exact Hns |]. split; [lia |].
        right. split; [reflexivity | exact Hone].
    + exists []. cbn [snd ret]. rewrite Hc, app_nil_r.
      split; [reflexivity |]. split; [exact Hns |]. split; [lia | now left].
  - destruct Hgen as [[_ Hc] | [_ [[Hc _] | [[Hc _] | [params Hc]]]]];
      eexists; exists []; rewrite Hc, app_nil_r;
      (split; [reflexivity |]); (split; [reflexivity |]);
      (split; [cbn; lia | now left]).
Qed.

Lemma run_started_keeps_threads (thread : nat) w :
  fst (run_started lib thread w) = Return tt /\
  started (snd (run_started lib thread w)) = started w.
Proof.
  unfold run_started.
  destruct (nth_error (started w) thread) as [[ctx] |]; [| split; reflexivity].
  unfold run_thread.
  destruct (construct_keeps_threads ctx w) as [_ Hst].
  destruct (_construct lib ctx w) as [[[] | e] w1]; cbn [fst snd started] in *;
    split; try reflexivity; exact Hst.
Qed.

Lemma session_press (c : Context) (events : list Event) w :
  session lib (Press c :: events) w =
    match
      session lib events
        (mkWorld (stdout w) (stderr w) (calls w) (started w ++ [Target_construct c])%list
           (host w))
    with
    | (Return rs, w') => (Return ([FINISHED] :: rs), w')
    | (Raise e, w') => (Raise e, w')
    end.
Proof. reflexivity. Qed.

Lemma session_run (i : nat) (events : list Event) w :
  session lib (Run i :: events) w =
    match run_started lib i w with
    | (Return _, w') => session lib events w'
    | (Raise e, w') => (Raise e, w')
    end.
Proof. reflexivity. Qed.

(** X7: however presses of the button and runs of started threads follow
    one another, every press hands [{'FINISHED'}] back and starts one thread,
    and no run of a thread starts one: the threads started are those before
    and one for each press, in the order of the presses. *)
Theorem every_press_starts_a_thread (events : list Event) w :
  fst (session lib events w) = Return (map (fun _ => [FINISHED]) (presses events)) /\
  started (snd (session lib events w))
    = (started w ++ map Target_construct (presses events))%list.
Proof.
  revert w. induction events as [| [c | i] events IH]; intros w.
  - cbn. now rewrite app_nil_r.
  - rewrite session_press.
    specialize (IH (mkWorld (stdout w) (stderr w) (calls w)
                      (started w ++ [Target_construct c])%list (host w))).
    destruct IH as [IHr IHs].
    destruct (session lib events _) as [r w1]. cbn [fst snd] in IHr, IHs. subst r.
    cbn [fst snd presses flat_map map app]. split; [reflexivity |].
    rewrite IHs. cbn [started]. now rewrite <- app_assoc.
  - rewrite session_run.
    destruct (run_started_keeps_threads i w) as [Hr Hs].
    destruct (run_started lib i w) as [r w1]. cbn [fst snd] in Hr, Hs. subst r.
    destruct (IH w1) as [IHr IHs]. rewrite <- Hs.
    cbn [presses flat_map app]. split; assumption.
Qed.

End Steps.

Example two_presses_two_threads :
  fst (session lib_ok two_presses empty_world) = Return [[FINISHED]; [FINISHED]] /\
  length (started (snd (session lib_ok two_presses empty_world))) = 2%nat /\
  host (snd (session lib_ok two_presses empty_world)) = ["tree"; "tree"].
Proof. vm_compute. repeat split. Qed.

Lemma construct_routes_witness :
  exists rest,
    calls (snd (_construct lib_ok (mkContext (scene_of custom_selected)) empty_world)) =
      ([] ++ Call_lsystems_construct "custom" true :: rest)%list
    /\ (rest = [] \/ rest = [Call_simplify_branch_geometry]).
Proof.
  exact (construct_routes_by_module_name lib_ok (mkContext (scene_of custom_selected))
           empty_world eq_refl).
Defined.

Lemma generator_failure_witness :
  _construct lib_lsystems_fails (mkContext (scene_of lsystem_mode)) empty_world =
    (Raise (mkExn ImportError "No module named 'ch_trees.lsystems.sys_defs.lsys1'"),
     mkWorld [] [] [Call_lsystems_construct "ch_trees.lsystems.sys_defs.lsys1" true]
       [] [])
  /\
  _construct lib_parametric_fails
    (mkContext (scene_of (assign_simplify_geometry true panel_defaults))) empty_world =
    (Raise (mkExn ValueError "math domain error"),
     mkWorld [] []
       [Call_import quaking_aspen; Call_reload quaking_aspen;
        Call_parametric_construct 7%nat 0 false "/home/user/treegen_render.png" true]
       [] ["trunk"]).
Proof.
  split.
  - exact (proj1 (generator_failure_leaves_construct lib_lsystems_fails
                    (mkContext (scene_of lsystem_mode)) empty_world
                    (mkExn ImportError
                       "No module named 'ch_trees.lsystems.sys_defs.lsys1'") [])
             eq_refl eq_refl).
  - exact (proj2 (generator_failure_leaves_construct lib_parametric_fails
                    (mkContext (scene_of (assign_simplify_geometry true panel_defaults)))
                    empty_world (mkExn ValueError "math domain error") ["trunk"])
             7%nat [] [] [] eq_refl eq_refl eq_refl eq_refl eq_refl).
Defined.

Lemma simplification_is_announced_witness :
  _construct lib_ok
    (mkContext (scene_of (assign_simplify_geometry true panel_defaults))) empty_world =
    (Return tt,
     mkWorld [simplifying_message; complete_message] []
       [Call_import quaking_aspen; Call_reload quaking_aspen;
        Call_parametric_construct 7%nat 0 false "/home/user/treegen_render.png" true;
        Call_simplify_branch_geometry]
       [] ["tree"]).
Proof.
  exact (simplification_is_announced_and_completed lib_ok
           (mkContext (scene_of (assign_simplify_geometry true panel_defaults)))
           empty_world
           (mkWorld [] []
              [Call_import quaking_aspen; Call_reload quaking_aspen;
               Call_parametric_construct 7%nat 0 false
                 "/home/user/treegen_render.png" true] [] ["tree"])
           ["tree"] ["tree"] eq_refl eq_refl eq_refl eq_refl).
Defined.

Lemma interrupt_passes_through_witness :
  _construct lib_simplify_interrupted
    (mkContext (scene_of (assign_simplify_geometry true panel_defaults))) empty_world =
    (Raise (mkExn KeyboardInterrupt ""),
     mkWorld [simplifying_message] []
       [Call_import quaking_aspen; Call_reload quaking_aspen;
        Call_parametric_construct 7%nat 0 false "/home/user/treegen_render.png" true;
        Call_simplify_branch_geometry]
       [] ["tree"]).
Proof.
  exact (interrupt_passes_through_handler lib_simplify_interrupted
           (mkContext (scene_of (assign_simplify_geometry true panel_defaults)))
           empty_world
           (mkWorld [] []
              [Call_import quaking_aspen; Call_reload quaking_aspen;
               Call_parametric_construct 7%nat 0 false
                 "/home/user/treegen_render.png" true] [] ["tree"])
           ["tree"] ["tree"] (mkExn KeyboardInterrupt "")
           eq_refl eq_refl eq_refl eq_refl eq_refl).
Defined.

Lemma unticked_simplification_witness :
  stdout (snd (_construct lib_simplify_fails (mkContext (scene_of panel_defaults))
                 empty_world)) = [] /\
  exists new,
    calls (snd (_construct lib_simplify_fails (mkContext (scene_of panel_defaults))
                  empty_world)) = ([] ++ new)%list /\
    filter is_simplify_call new = [].
Proof.
  exact (unticked_simplification_is_not_run lib_simplify_fails
           (mkContext (scene_of panel_defaults)) empty_world eq_refl).
Defined.

End GuiStepsFacts.

(* ===================================================================== *)
(** * Facts about [TreeGenPanel.draw]                                     *)
(* ===================================================================== *)

Module PanelFacts.

Import Py Bpy Gui GuiInstances GuiSteps Panel.
Local Open Scope list_scope.

Lemma update_last {A} (f : A -> A) (l : list A) (x : A) :
  Core.update (length l) f (l ++ [x]) = l ++ [f x].
Proof. induction l as [| y l IH]; simpl; [reflexivity | now rewrite IH]. Qed.

Lemma ui_bind_Return {A B} (c : UI A) (k : A -> UI B) l a l' :
  c l = (Return a, l') -> bind c k l = k a l'.
Proof. intros H. unfold bind. now rewrite H. Qed.

Lemma label_row_appends (label prop : string) (separator one_row : bool) (l : Layout) :
  label_row label prop separator one_row l =
    (Return tt, l ++ label_row_items label prop separator one_row).
Proof.
  unfold label_row, label_row_items, bind, layout_row, row_prop, row_label,
    layout_separator, ret.
  destruct (one_row || negb (truthy label)) eqn:Hone.
  - rewrite update_last. cbn [add_widget app].
    destruct (truthy label).
    + rewrite update_last. cbn [add_widget app].
      destruct separator; now rewrite <- ?app_assoc, ?app_nil_r.
    + destruct separator; now rewrite <- ?app_assoc, ?app_nil_r.
  - rewrite update_last. cbn [add_widget app].
    replace (length (l ++ [Row [Label label]])) with (length (l ++ [Row [Label label]]))
      by reflexivity.
    rewrite update_last. cbn [add_widget app].
    destruct separator; now rewrite <- ?app_assoc, ?app_nil_r.
Qed.

Lemma bind_label_row {B} (label prop : string) (separator one_row : bool)
    (k : unit -> UI B) (l : Layout) :
  bind (label_row label prop separator one_row) k l =
    k tt (l ++ label_row_items label prop separator one_row).
Proof. apply ui_bind_Return, label_row_appends. Qed.

Lemma shown_app (l l' : Layout) : shown (l ++ l') = shown l ++ shown l'.
Proof. unfold shown. apply flat_map_app. Qed.

Lemma labels_app (l l' : Layout) : labels (l ++ l') = labels l ++ labels l'.
Proof. unfold labels. apply flat_map_app. Qed.

(** X8: [label_row] only appends: what is laid out stays as it is, the
    property is shown exactly once, the label only when it is not empty, on
    one row when asked for or when there is no label and on two otherwise,
    followed by a separator exactly when asked for. *)
Theorem label_row_only_appends (label prop : string) (separator one_row : bool)
    (l : Layout) :
  exists new,
    label_row label prop separator one_row l = (Return tt, l ++ new) /\
    shown new = [prop] /\
    labels new = (if String.eqb label "" then [] else [label]) /\
    length (filter is_row new)
      = (if one_row || String.eqb label "" then 1 else 2)%nat /\
    filter is_separator new = (if separator then [Separator] else []) /\
    existsb is_operator new = false.
Proof.
  exists (label_row_items label prop separator one_row).
  split; [apply label_row_appends |].
  unfold label_row_items, truthy.
  destruct (String.eqb label "") eqn:Hl; cbn [negb];
    destruct one_row, separator; cbn; repeat split; reflexivity.
Qed.

Lemma no_parametric_tree_type_input (s : Scene) :
  scene_getattr s "parametric_tree_type_input" =
    Raise (mkExn AttributeError
             "'Scene' object has no attribute 'parametric_tree_type_input'").
Proof. reflexivity. Qed.

Ltac ui_run :=
  cbv [bind ret layout_separator layout_row layout_operator lift];
  repeat (rewrite label_row_appends; cbv beta iota).

Lemma draw_parametric (ctx : Context) (l : Layout) :
  tree_gen_method_input (scene ctx) = "parametric" ->
  draw ctx l =
    (Raise (mkExn AttributeError
              "'Scene' object has no attribute 'parametric_tree_type_input'"),
     l ++
     [ Row [Label "Method:"]; Row [Prop_ "tree_gen_method_input"]; Separator;
       Row [Label "Tree Type:"]; Row [Prop_ "para_tree_type_input"]; Separator;
       Row [Label "Seed:"]; Row [Prop_ "seed_input"]; Separator;
       Row [Prop_ "generate_leaves_input"];
       Row [Prop_ "simplify_geometry_input"]; Separator;
       Row [Prop_ "render_input"] ] ++
     (if render_input (scene ctx)
      then [Row [Label "Render output path:"]; Row [Prop_ "render_output_path_input"]]
      else []) ++
     [Separator]).
Proof.
  intros Hm. unfold draw. cbv zeta. rewrite Hm.
  change (String.eqb "parametric" "parametric") with true. cbv iota.
  destruct (render_input (scene ctx)); ui_run;
    rewrite no_parametric_tree_type_input; f_equal;
    unfold label_row_items; cbn; rewrite <- !app_assoc; reflexivity.
Qed.

Lemma draw_other_mode (ctx : Context) (l : Layout) :
  String.eqb (tree_gen_method_input (scene ctx)) "parametric" = false ->
  draw ctx l =
    (Return tt,
     l ++
     [ Row [Label "Method:"]; Row [Prop_ "tree_gen_method_input"]; Separator;
       Row [Label "Tree Type:"]; Row [Prop_ "lsys_tree_type_input"]; Separator;
       Row [Prop_ "generate_leaves_input"];
       Row [Prop_ "simplify_geometry_input"]; Separator;
       Separator; Row []; Operator "object.tree_gen" ]).
Proof.
  intros Hm. unfold draw. cbv zeta. rewrite Hm. ui_run.
  f_equal. unfold label_row_items, bl_idname. cbn. rewrite <- !app_assoc. reflexivity.
Qed.

(** X9: in parametric mode, the mode the panel opens in, [draw] raises
    [AttributeError] at [scene.parametric_tree_type_input], an attribute
    that is never set on the scene: the inputs are laid out after what was
    there, and the "Generate Tree" button is not. *)
Theorem draw_fails_before_the_button (ctx : Context) (l : Layout) :
  tree_gen_method_input (scene ctx) = "parametric" ->
  exists new,
    draw ctx l =
      (Raise (mkExn AttributeError
                "'Scene' object has no attribute 'parametric_tree_type_input'"),
       l ++ new) /\
    existsb is_operator new = false /\
    shown new =
      [ "tree_gen_method_input"; "para_tree_type_input"; "seed_input";
        "generate_leaves_input"; "simplify_geometry_input"; "render_input" ]
      ++ (if render_input (scene ctx) then ["render_output_path_input"] else []).
Proof.
  intros Hm. eexists. split; [apply (draw_parametric ctx l Hm) |].
  destruct (render_input (scene ctx)); split; reflexivity.
Qed.

Lemma draw_fails_before_the_button_witness :
  exists new,
    draw (mkContext (scene_of panel_defaults)) [] =
      (Raise (mkExn AttributeError
                "'Scene' object has no attribute 'parametric_tree_type_input'"),
       [] ++ new) /\
    existsb is_operator new = false /\
    shown new =
      [ "tree_gen_method_input"; "para_tree_type_input"; "seed_input";
        "generate_leaves_input"; "simplify_geometry_input"; "render_input" ]
      ++ (if render_input (scene (mkContext (scene_of panel_defaults)))
          then ["render_output_path_input"] else []).
Proof.
  exact (draw_fails_before_the_button (mkContext (scene_of panel_defaults)) []
           eq_refl).
Defined.

(** X10: in any other mode [draw] returns; it lays out, after what was
    there, the method, the L-system tree type and the two check boxes,
    neither the seed nor the render inputs, and the "Generate Tree" button
    as the last item and the only button. *)
Theorem draw_lsystem_layout (ctx : Context) (l : Layout) :
  String.eqb (tree_gen_method_input (scene ctx)) "parametric" = false ->
  exists new,
    draw ctx l = (Return tt, l ++ new) /\
    shown new =
      [ "tree_gen_method_input"; "lsys_tree_type_input";
        "generate_leaves_input"; "simplify_geometry_input" ] /\
    labels new = ["Method:"; "Tree Type:"] /\
    filter is_operator new = [Operator "object.tree_gen"] /\
    last new Separator = Operator "object.tree_gen".
Proof.
  intros Hm. eexists. split; [apply (draw_other_mode ctx l Hm) |].
  repeat split; reflexivity.
Qed.

Lemma draw_lsystem_layout_witness :
  exists new,
    draw (mkContext (scene_of lsystem_mode)) [] = (Return tt, [] ++ new) /\
    shown new =
      [ "tree_gen_method_input"; "lsys_tree_type_input";
        "generate_leaves_input"; "simplify_geometry_input" ] /\
    labels new = ["Method:"; "Tree Type:"] /\
    filter is_operator new = [Operator "object.tree_gen"] /\
    last new Separator = Operator "object.tree_gen".
Proof.
  exact (draw_lsystem_layout (mkContext (scene_of lsystem_mode)) [] eq_refl).
Defined.

Ltac all_different :=
  repeat (constructor;
          [ cbn; let H := fresh in
            intros H;
            repeat (destruct H as [H | H]; [discriminate H |]); exact H
          | ]);
  constructor.

(** X11: whatever the scene and whatever is laid out already, [draw] only
    appends; it shows inputs of the operator only, each at most once, never
    an input of the customizer; and the button is laid out exactly when
    [draw] returns. *)
Theorem draw_shows_operator_inputs_only (ctx : Context) (l : Layout) :
  exists new,
    snd (draw ctx l) = l ++ new /\
    incl (shown new) operator_inputs /\
    NoDup (shown new) /\
    existsb is_operator new =
      match fst (draw ctx l) with
      | Return _ => true
      | Raise _ => false
      end.
Proof.
  assert (Hincl : forall xs : list string,
            forallb (fun x => existsb (String.eqb x) operator_inputs) xs = true ->
            incl xs operator_inputs).
  { intros xs H x Hx. rewrite forallb_forall in H. specialize (H x Hx).
    apply existsb_exists in H. destruct H as [y [Hy Heq]].
    apply String.eqb_eq in Heq. now subst. }
  destruct (String.eqb (tree_gen_method_input (scene ctx)) "parametric") eqn:Hm.
  - apply String.eqb_eq in Hm. rewrite (draw_parametric ctx l Hm).
    eexists. split; [reflexivity |].
    destruct (render_input (scene ctx)).
    + split; [apply Hincl; reflexivity |].
      split; [| reflexivity].
      cbn. all_different.
    + split; [apply Hincl; reflexivity |].
      split; [| reflexivity].
      cbn. all_different.
  - rewrite (draw_other_mode ctx l Hm).
    eexists. split; [reflexivity |].
    split; [apply Hincl; reflexivity |].
    split; [| reflexivity].
    cbn. all_different.
Qed.

End PanelFacts.

(* ===================================================================== *)
(** * Facts about [_get_tree_types]                                       *)
(* ===================================================================== *)

Module TreeTypesFacts.

Import Bpy TreeTypes.

Lemma existsb_filter {A} (p : A -> bool) (l : list A) :
  existsb p l = match filter p l with nil => false | _ => true end.
Proof.
  induction l as [| x l IH]; [reflexivity |].
  simpl. destruct (p x); [reflexivity | exact IH].
Qed.

Lemma combine_map {A B C} (f : A -> B) (g : A -> C) (l : list A) :
  combine (map f l) (map g l) = map (fun x => (f x, g x)) l.
Proof. induction l as [| x l IH]; [reflexivity |]. simpl. now rewrite IH. Qed.

(** One folder, by what the listing holds. *)
Lemma scan_cases (fs : FileSystem) (str_title : string -> string)
    (addon_name addon_path : string) (modparts : list string) :
  scan fs str_title addon_name addon_path modparts =
    match listdir fs (path_join addon_path modparts) with
    | inl e => inl e
    | inr names =>
        let files :=
          map stem
            (filter (fun f => isfile fs (path_join (path_join addon_path modparts) [f]))
               names) in
        let pairs :=
          map (fun f => (module_of addon_name modparts f, title_of str_title f)) files in
        match pairs with
        | nil => inl (IndexError "list index out of range")
        | first :: _ =>
            inr (map (fun mt => [fst mt; snd mt; snd mt]%list) pairs,
                 pick_default (fst first) pairs)
        end
    end.
Proof.
  unfold scan. cbv zeta.
  destruct (listdir fs (path_join addon_path modparts)) as [e | names];
    [reflexivity |].
  cbn [bind]. rewrite combine_map.
  destruct (map stem _) as [| f files]; reflexivity.
Qed.

(** The whole function, by what the first folder holds. *)
Lemma get_tree_types_cases (fs : FileSystem) (str_title : string -> string)
    (file : string) :
  _get_tree_types fs str_title file =
    match last_item (removelast (split sep file)) with
    | inl e => inl e
    | inr _ =>
        match listdir fs (presets_path file) with
        | inl e => inl e
        | inr names =>
            if existsb (fun f => isfile fs (path_join (presets_path file) [f])) names
            then inl (NameError "name 'enum_options' is not defined")
            else inl (IndexError "list index out of range")
        end
    end.
Proof.
  unfold _get_tree_types. cbv zeta.
  destruct (last_item (removelast (split sep file))) as [e | addon_name];
    [reflexivity |].
  cbn [bind]. unfold module_path_parts. cbn [scan_all].
  rewrite scan_cases. fold (presets_path file).
  destruct (listdir fs (presets_path file)) as [e | names]; [reflexivity |].
  cbv zeta. rewrite existsb_filter.
  destruct (filter _ names) as [| f files]; reflexivity.
Qed.

(** X12: [_get_tree_types] never returns a value: wherever the module lies
    and whatever its folders hold, the call ends in an exception. *)
Theorem get_tree_types_never_returns (fs : FileSystem)
    (str_title : string -> string) (file : string) :
  exists e, _get_tree_types fs str_title file = inl e.
Proof.
  rewrite get_tree_types_cases.
  destruct (last_item _) as [e | n]; [now exists e |].
  destruct (listdir fs _) as [e | names]; [now exists e |].
  destruct (existsb _ names); eexists; reflexivity.
Qed.

(** X13: with the module in a folder whose preset folder lists at least one
    regular file, the first turn of the loop ends at
    [enum_options.append(options)]: the function binds [enums_options] only,
    and the call raises [NameError]. *)
Theorem get_tree_types_stops_at_enum_options (fs : FileSystem)
    (str_title : string -> string) (file : string)
    (addon_name : string) (names : list string) :
  last_item (removelast (split sep file)) = inr addon_name ->
  listdir fs (presets_path file) = inr names ->
  existsb (fun f => isfile fs (path_join (presets_path file) [f])) names = true ->
  _get_tree_types fs str_title file
    = inl (NameError "name 'enum_options' is not defined").
Proof.
  intros Hn Hl Hf. rewrite get_tree_types_cases, Hn, Hl, Hf. reflexivity.
Qed.

Lemma get_tree_types_stops_at_enum_options_witness :
  _get_tree_types addon_folder ascii_title "/addons/ch_trees/gui.py" =
    inl (NameError "name 'enum_options' is not defined").
Proof.
  exact (get_tree_types_stops_at_enum_options addon_folder ascii_title
           "/addons/ch_trees/gui.py"
           "ch_trees"
           ["quaking_aspen.py"; "black_oak.py"; "__pycache__"; ".DS_Store"]%list
           eq_refl eq_refl eq_refl).
Defined.

(** X14: a preset folder that lists no regular file stops the call earlier,
    at [modules[0]], with [IndexError]. *)
Theorem get_tree_types_needs_a_preset (fs : FileSystem)
    (str_title : string -> string) (file : string)
    (addon_name : string) (names : list string) :
  last_item (removelast (split sep file)) = inr addon_name ->
  listdir fs (presets_path file) = inr names ->
  existsb (fun f => isfile fs (path_join (presets_path file) [f])) names = false ->
  _get_tree_types fs str_title file = inl (IndexError "list index out of range").
Proof.
  intros Hn Hl Hf. rewrite get_tree_types_cases, Hn, Hl, Hf. reflexivity.
Qed.

Lemma get_tree_types_needs_a_preset_witness :
  _get_tree_types empty_folder ascii_title "/addons/ch_trees/gui.py" =
    inl (IndexError "list index out of range").
Proof.
  exact (get_tree_types_needs_a_preset empty_folder ascii_title
           "/addons/ch_trees/gui.py"
           "ch_trees" nil eq_refl eq_refl eq_refl).
Defined.

(** X15: the folder of the L-system definitions is never read: two file
    systems that agree on the preset folder give the same outcome. *)
Theorem lsystem_folder_is_never_read (fs fs' : FileSystem)
    (str_title : string -> string) (file : string) :
  listdir fs (presets_path file) = listdir fs' (presets_path file) ->
  (forall f, isfile fs (path_join (presets_path file) [f])
             = isfile fs' (path_join (presets_path file) [f])) ->
  _get_tree_types fs str_title file = _get_tree_types fs' str_title file.
Proof.
  intros Hl Hf. rewrite !get_tree_types_cases, Hl.
  destruct (last_item _) as [e | n]; [reflexivity |].
  destruct (listdir fs' _) as [e | names]; [reflexivity |].
  replace (existsb (fun f => isfile fs (path_join (presets_path file) [f])) names)
    with (existsb (fun f => isfile fs' (path_join (presets_path file) [f])) names);
    [reflexivity |].
  clear Hl. induction names as [| x names IH]; [reflexivity |].
  cbn [existsb]. now rewrite IH, Hf.
Qed.

Lemma lsystem_folder_is_never_read_witness :
  _get_tree_types addon_folder ascii_title "/addons/ch_trees/gui.py" =
  _get_tree_types no_lsystems_folder ascii_title "/addons/ch_trees/gui.py".
Proof.
  exact (lsystem_folder_is_never_read addon_folder no_lsystems_folder ascii_title
           "/addons/ch_trees/gui.py" eq_refl (fun f => eq_refl)).
Defined.

(** The inner loop's choice: the first module, unless a title is
    'Quaking Aspen'. *)
Lemma pick_default_cases (pairs : list (string * string)) (first : string) :
  (pick_default first pairs = first /\
   forall m, ~ In (m, "Quaking Aspen") pairs)
  \/ In (pick_default first pairs, "Quaking Aspen") pairs.
Proof.
  revert first. induction pairs as [| [m t] pairs IH]; intros first.
  - left. split; [reflexivity | intros m []].
  - unfold pick_default. cbn [fold_left fst snd].
    fold (pick_default (if String.eqb t "Quaking Aspen" then m else first) pairs).
    destruct (String.eqb_spec t "Quaking Aspen") as [-> | Ht].
    + right. destruct (IH m) as [[-> _] | H]; [now left | now right].
    + destruct (IH first) as [[-> Hno] | H]; [left | right; now right].
      split; [reflexivity |].
      intros m' [H | H]; [congruence | exact (Hno m' H)].
Qed.

(** X16: when the scan of a folder returns, its drop-down is not empty,
    every item is a module name with its title as label and as hover text,
    and the default is the identifier of an item: of one titled
    'Quaking Aspen' when there is one, of the first item otherwise. *)
Theorem scan_default_is_an_item (fs : FileSystem) (str_title : string -> string)
    (addon_name addon_path : string) (modparts : list string)
    (options : list (list string)) (default : string) :
  scan fs str_title addon_name addon_path modparts = inr (options, default) ->
  Forall (fun o => exists f,
            o = [module_of addon_name modparts f; title_of str_title f;
                 title_of str_title f]%list)
    options /\
  ((In [default; "Quaking Aspen"; "Quaking Aspen"]%list options)
   \/
   ((forall m, ~ In [m; "Quaking Aspen"; "Quaking Aspen"]%list options) /\
    exists t rest, options = ([default; t; t] :: rest)%list)).
Proof.
  rewrite scan_cases.
  destruct (listdir fs _) as [e | names]; [discriminate |]. cbv zeta.
  set (files := map stem _). clearbody files.
  destruct files as [| f files]; [discriminate |].
  intros H. injection H as Ho Hd.
  set (pairs := map (fun f0 => (module_of addon_name modparts f0,
                                title_of str_title f0))
                  (f :: files)).
  assert (Ho' : options = map (fun mt => [fst mt; snd mt; snd mt]%list) pairs)
    by (rewrite <- Ho; reflexivity).
  assert (Hd' : default = pick_default (module_of addon_name modparts f) pairs)
    by (rewrite <- Hd; reflexivity).
  clear Ho Hd. split.
  - rewrite Ho'. apply Forall_forall. intros o Ho.
    apply in_map_iff in Ho. destruct Ho as [[m t] [<- Hin]].
    apply in_map_iff in Hin. destruct Hin as [f' [Heq _]].
    injection Heq as <- <-. now exists f'.
  - destruct (pick_default_cases pairs (module_of addon_name modparts f))
      as [[Hp Hno] | Hin].
    + right. split.
      * intros m Hm. rewrite Ho' in Hm. apply in_map_iff in Hm.
        destruct Hm as [[m' t'] [Heq Hin]]. cbn [fst snd] in Heq.
        injection Heq as -> ->. exact (Hno m Hin).
      * rewrite Ho', Hd', Hp. exists (title_of str_title f). eexists. reflexivity.
    + left. rewrite Ho', Hd'.
      apply in_map_iff. eexists. split; [| exact Hin]. reflexivity.
Qed.

Lemma scan_default_is_an_item_witness :
  exists options default,
    scan addon_folder ascii_title "ch_trees" "/addons/ch_trees"
      ["parametric"; "tree_params"]%list = inr (options, default) /\
    Forall (fun o => exists f,
              o = [module_of "ch_trees" ["parametric"; "tree_params"]%list f;
                   title_of ascii_title f; title_of ascii_title f]%list)
      options /\
    ((In [default; "Quaking Aspen"; "Quaking Aspen"]%list options)
     \/
     ((forall m, ~ In [m; "Quaking Aspen"; "Quaking Aspen"]%list options) /\
      exists t rest, options = ([default; t; t] :: rest)%list)).
Proof.
  eexists. eexists. split; [vm_compute; reflexivity |].
  exact (scan_default_is_an_item addon_folder ascii_title "ch_trees" "/addons/ch_trees"
           ["parametric"; "tree_params"]%list _ _ eq_refl).
Defined.

End TreeTypesFacts.

(* ===================================================================== *)
(** * The scanned module names and [_construct]'s choice of generator     *)
(* ===================================================================== *)

Module RoutingFacts.

Import Py Bpy Gui GuiInstances GuiFacts GuiSteps.

Lemma construct_extends_generation {Host Params : Type} (lib : Imports Host Params)
    (ctx : Context) (w : World Host Params) :
  exists rest,
    calls (snd (_construct lib ctx w)) =
      (calls (snd (generation_step lib (scene ctx) w)) ++ rest)%list /\
    (rest = nil \/ rest = [Call_simplify_branch_geometry]%list).
Proof.
  rewrite (GuiStepsFacts.construct_steps lib ctx). unfold bind at 1.
  destruct (generation_step lib (scene ctx) w) as [[[] | e] w0]; cbn [snd].
  - destruct (simplify_geometry_input (scene ctx)).
    + destruct (GuiStepsFacts.simplification_cases lib ctx w0)
        as (_ & _ & [(Hs & _) | (Hs & _)]).
      * exists nil. rewrite Hs, app_nil_r. auto.
      * exists [Call_simplify_branch_geometry]%list. rewrite Hs. auto.
    + exists nil. cbn [snd ret]. rewrite app_nil_r. auto.
  - exists nil. rewrite app_nil_r. auto.
Qed.

Ltac next_character name H :=
  let a := fresh "a" in
  let E := fresh "E" in
  destruct name as [| a name];
  [ reflexivity
  | cbn [String.prefix String.append] in H |- *;
    match goal with
    | |- context [ascii_dec ?c a] =>
        destruct (ascii_dec c a) as [E | E]; [subst a | reflexivity]
    end ].

(** A name built on a folder that is not called [ch_trees...] does not start
    with ['ch_trees.parametric']. *)
Lemma renamed_is_not_prefixed (name rest : string) :
  String.prefix "ch_trees" name = false ->
  String.prefix "ch_trees.parametric" (name ++ "." ++ rest) = false.
Proof.
  intros H.
  do 8 (next_character name H).
  destruct name; cbn [String.prefix] in H; discriminate H.
Qed.

(** X17: in an add-on folder called [ch_trees], every name the scan builds
    for a parametric preset passes [_construct]'s test: the module is
    imported first, and the L-system generator is not called. *)
Theorem scanned_presets_reach_the_parametric_generator {Host Params : Type}
    (lib : Imports Host Params) (ctx : Context) (w : World Host Params)
    (f : string) :
  selected_module (scene ctx)
    = TreeTypes.module_of "ch_trees" ["parametric"; "tree_params"]%list f ->
  exists rest,
    calls (snd (_construct lib ctx w)) =
      (calls w ++ Call_import (selected_module (scene ctx)) :: rest)%list /\
    forall name leaves, ~ In (Call_lsystems_construct name leaves) rest.
Proof.
  intros Hm.
  assert (Hp : String.prefix "ch_trees.parametric" (selected_module (scene ctx)) = true)
    by (rewrite Hm; reflexivity).
  destruct (construct_extends_generation lib ctx w) as [rest [Hc Hrest]].
  destruct (GuiStepsFacts.generation_cases lib (scene ctx) w)
    as (_ & _ & _ & [[Hp' _] | [_ Hg]]); [congruence |].
  destruct Hg as [[Hg _] | [[Hg _] | [params Hg]]]; rewrite Hg in Hc; clear Hg;
    rewrite <- app_assoc in Hc; cbn [app] in Hc;
    eexists; (split; [exact Hc |]);
    intros name leaves Hin;
    destruct Hrest as [-> | ->]; cbn [app In] in Hin;
    intuition discriminate.
Qed.

Lemma scanned_presets_witness :
  exists rest,
    calls (snd (_construct lib_ok (mkContext (scene_of panel_defaults)) empty_world)) =
      (nil ++ Call_import (selected_module (scene_of panel_defaults)) :: rest)%list /\
    forall name leaves, ~ In (Call_lsystems_construct name leaves) rest.
Proof.
  exact (scanned_presets_reach_the_parametric_generator lib_ok
           (mkContext (scene_of panel_defaults)) empty_world "quaking_aspen" eq_refl).
Defined.

(** X18: in an add-on folder whose name does not start with [ch_trees], the
    names the scan builds for the parametric presets fail [_construct]'s
    test, which is written for [ch_trees]: the preset is not imported, and
    its name is handed to the L-system generator. *)
Theorem renamed_addon_presets_reach_the_lsystem_generator {Host Params : Type}
    (lib : Imports Host Params) (ctx : Context) (w : World Host Params)
    (addon_name f : string) :
  String.prefix "ch_trees" addon_name = false ->
  selected_module (scene ctx)
    = TreeTypes.module_of addon_name ["parametric"; "tree_params"]%list f ->
  exists rest,
    calls (snd (_construct lib ctx w)) =
      (calls w ++
       Call_lsystems_construct (selected_module (scene ctx))
         (generate_leaves_input (scene ctx)) :: rest)%list /\
    (rest = nil \/ rest = [Call_simplify_branch_geometry]%list).
Proof.
  intros Hn Hm.
  assert (Hp : String.prefix "ch_trees.parametric" (selected_module (scene ctx)) = false).
  { rewrite Hm. unfold TreeTypes.module_of. apply renamed_is_not_prefixed, Hn. }
  destruct (construct_extends_generation lib ctx w) as [rest [Hc Hrest]].
  destruct (GuiStepsFacts.generation_cases lib (scene ctx) w)
    as (_ & _ & _ & [[_ Hg] | [Hp' _]]); [| congruence].
  exists rest. split; [| exact Hrest].
  rewrite Hc, Hg, <- app_assoc. reflexivity.
Qed.

Lemma renamed_addon_presets_witness :
  exists rest,
    calls (snd (_construct lib_ok
                  (mkContext
                     (scene_of
                        (untouched "tree-gen.parametric.tree_params.quaking_aspen"
                           "tree-gen.lsystems.sys_defs.lsys1"
                           "/home/user/treegen_render.png")))
                  empty_world)) =
      (nil ++
       Call_lsystems_construct "tree-gen.parametric.tree_params.quaking_aspen" true
         :: rest)%list /\
    (rest = nil \/ rest = [Call_simplify_branch_geometry]%list).
Proof.
  exact (renamed_addon_presets_reach_the_lsystem_generator lib_ok
           (mkContext
              (scene_of
                 (untouched "tree-gen.parametric.tree_params.quaking_aspen"
                    "tree-gen.lsystems.sys_defs.lsys1"
                    "/home/user/treegen_render.png")))
           empty_world "tree-gen" "quaking_aspen" eq_refl eq_refl).
Defined.

End RoutingFacts.
